(** * Convert-HTML-To-PDF: the field extractor, the overlay builder and the
    page merger of [main.py], with the properties of its specification.

    The program is a pipeline of three steps:
    - [render_html_to_pdf] evaluates a script in the browser page that turns
      every [input], [select] and [textarea] element into a field descriptor;
    - [make_overlay_pdf] asks a ReportLab canvas for its form under the
      name [acroform] and means to draw one AcroForm widget per descriptor
      on a single page and to save it;
    - [merge_pdfs] reads the rendered document and the overlay back with
      pdfrw, stamps an overlay page on every base page and writes the result.

    Numbers.  The script and the Python code compute on IEEE doubles.  The
    code is embedded once, over an interface [Arith] of the operations it
    uses, and read at two instances: exact rationals [Q] (the specification
    speaks of real numbers) and IEEE binary64 ([spec_float] with precision
    53 and the rounding the interpreter performs).  Statements that do not
    look at the numbers are proved for every instance; the size policy is
    proved at both; the sign of [y_pt] is a statement of exact arithmetic,
    and the examples are evaluated at both instances.

    Collaborators.  ReportLab and pdfrw are not part of [main.py].  The
    page size [A4], the attribute names of a canvas ([Canvas_attrs]),
    whether ReportLab rejects a widget or a rectangle ([acroform_rejects],
    [rect_rejects]), what it paints for a widget ([acroform_paints]) and
    pdfrw's page compositing ([render]) are variables of the sections
    below; the libraries as they are shipped are among the samples. *)

From Stdlib Require Import ZArith QArith Qminmax Lqa Ascii String.
From Stdlib Require Import Floats.SpecFloat DecimalString DecimalNat.
From stdpp Require Import gmap strings list.

(** ** Exceptions *)

(** [IndexError] from indexing a list, [AttributeError] from an attribute
    an object does not have, pdfrw's [PdfParseError] for a path it cannot
    read a file from, and whatever ReportLab raises when it rejects a
    widget ([AcroFormError]) or a drawing call ([CanvasError]). *)

Inductive exn :=
| IndexError
| AttributeError
| PdfParseError
| AcroFormError
| CanvasError.

Inductive result (A : Type) : Type :=
| Ok (a : A)
| Raised (e : exn).
Arguments Ok {A} a.
Arguments Raised {A} e.

#[global] Instance result_ret : MRet result := @Ok.
#[global] Instance result_bind : MBind result := fun A B f m =>
  match m with
  | Ok a => f a
  | Raised e => Raised e
  end.

(** ** Arithmetic of the interpreter *)

Class Arith (num : Type) := {
  num_of_Z : Z -> num;
  num_mul : num -> num -> num;
  num_sub : num -> num -> num;
  num_div : num -> num -> num;
  num_ltb : num -> num -> bool;
}.

Declare Scope num_scope.
Delimit Scope num_scope with num.
Infix "*" := num_mul : num_scope.
Infix "-" := num_sub : num_scope.
Infix "/" := num_div : num_scope.
Infix "<?" := num_ltb : num_scope.

Definition Qltb (a b : Q) : bool :=
  match (a ?= b)%Q with
  | Lt => true
  | _ => false
  end.

#[global] Instance Q_arith : Arith Q := {|
  num_of_Z := inject_Z;
  num_mul := Qmult;
  num_sub := Qminus;
  num_div := Qdiv;
  num_ltb := Qltb;
|}.

Module Binary64.
Definition prec : Z := 53.
Definition emax : Z := 1024.
Definition of_Z (z : Z) : spec_float := binary_normalize prec emax z 0 false.
End Binary64.

#[global] Instance binary64_arith : Arith spec_float := {|
  num_of_Z := Binary64.of_Z;
  num_mul := SFmul Binary64.prec Binary64.emax;
  num_sub := SFsub Binary64.prec Binary64.emax;
  num_div := SFdiv Binary64.prec Binary64.emax;
  num_ltb := SFltb;
|}.

(** ** Strings of the script *)

Definition lower_ascii (c : ascii) : ascii :=
  let n := nat_of_ascii c in
  if (65 <=? n)%nat && (n <=? 90)%nat then ascii_of_nat (n + 32) else c.

Fixpoint toLowerCase (s : string) : string :=
  match s with
  | EmptyString => EmptyString
  | String c s' => String (lower_ascii c) (toLowerCase s')
  end.

(** [idx] printed the way [tag + '_' + idx] prints an array index. *)
Definition string_of_index (idx : nat) : string :=
  NilEmpty.string_of_uint (Nat.to_uint idx).

(** A property read from an element is a string or [undefined] ([None]). *)
Definition truthy (v : option string) : bool :=
  match v with
  | Some s => negb (String.eqb s EmptyString)
  | None => false
  end.

(** [a || b] *)
Definition js_or (a b : option string) : option string :=
  if truthy a then a else b.

(** [a || b] where [b] is a string expression. *)
Definition js_or_else (a : option string) (b : string) : string :=
  match js_or a (Some b) with
  | Some s => s
  | None => b
  end.

(** ** Python built-ins *)

Section Builtins.
Context {num : Type} `{Arith num}.
Local Open Scope num_scope.

(** [max(a, b)]: the first argument unless the second is greater. *)
Definition py_max (a b : num) : num := if a <? b then b else a.

(** [min(a, b)]: the first argument unless the second is smaller. *)
Definition py_min (a b : num) : num := if b <? a then b else a.
End Builtins.

(** [l[k]] with Python's negative indices. *)
Definition py_index {A : Type} (l : list A) (k : Z) : result A :=
  let n := Z.of_nat (length l) in
  let k' := if (k <? 0)%Z then (k + n)%Z else k in
  if (k' <? 0)%Z then Raised IndexError
  else match l !! Z.to_nat k' with
       | Some a => Ok a
       | None => Raised IndexError
       end.

(** ** Data *)

Section Data.
Context {num : Type}.

(** What [getBoundingClientRect] returns. *)
Record DOMRect := {
  r_x : num;
  r_y : num;
  r_width : num;
  r_height : num;
}.

(** The properties the script reads from an element. [el_placeholder] is
    [undefined] on a [select]. *)
Record element := {
  tagName : string;
  el_type : option string;
  el_name : string;
  el_id : string;
  el_placeholder : option string;
  el_options : list (string * string);
  getBoundingClientRect : DOMRect;
}.

(** The object the script returns per element, and the dict
    [make_overlay_pdf] reads: [f['tag']], [f.get('type', '')],
    [str(f['name'])], [f['x']] and so on. *)
Record field := {
  f_tag : string;
  f_type : string;
  f_name : string;
  f_x : num;
  f_y : num;
  f_width : num;
  f_height : num;
  f_options : option (list (string * string));
}.

(** [borderStyle='underlined', forceBorder=True], or ReportLab's defaults. *)
Inductive text_style := UnderlinedForced | Plain.

Inductive widget :=
| Checkbox (name : string) (x y size : num) (checked : bool)
| TextField (name tooltip : string) (x y width height : num)
            (style : text_style).

Inductive drawing :=
| Rect (x y width height : num) (stroke fill : Z).

Record page := {
  mediabox : num * num;
  annots : list widget;
  graphics : list drawing;
}.

Record canvas := {
  filename : string;
  pagesize : num * num;
  acroform : list widget;
  code : list drawing;
  pages_done : list page;
}.
End Data.
Arguments DOMRect : clear implicits.
Arguments element : clear implicits.
Arguments field : clear implicits.
Arguments widget : clear implicits.
Arguments drawing : clear implicits.
Arguments page : clear implicits.
Arguments canvas : clear implicits.

(** A PDF file is the list of its pages; the file system maps paths to
    files. *)
Abbreviation document num := (list (page num)).
Abbreviation filesystem num := (gmap string (list (page num))).

(** ** [render_html_to_pdf]: the script given to [page.evaluate] *)

Section Extractor.
Context {num : Type}.

Definition field_of_element (el : element num) (idx : nat) : field num :=
  let r := getBoundingClientRect el in
  let tag := toLowerCase (tagName el) in
  let type := js_or_else (el_type el) EmptyString in
  let name :=
    js_or_else
      (js_or (js_or (Some (el_name el)) (Some (el_id el)))
             (el_placeholder el))
      (tag ++ "_" ++ string_of_index idx) in
  let options :=
    if String.eqb tag "select" then Some (el_options el) else None in
  {| f_tag := tag; f_type := type; f_name := name;
     f_x := r_x r; f_y := r_y r;
     f_width := r_width r; f_height := r_height r;
     f_options := options |}.

(** [nodes.map((el, idx) => ...)] *)
Definition extract_fields (nodes : list (element num)) : list (field num) :=
  imap (fun idx el => field_of_element el idx) nodes.
End Extractor.

(** ** [make_overlay_pdf] *)

Section Overlay.
Context {num : Type} `{Arith num}.
Local Open Scope num_scope.

(** [reportlab.lib.pagesizes.A4] *)
Variable A4 : num * num.
(** The attribute names of a [canvas.Canvas] object.  Python tells upper
    case from lower case in them. *)
Variable Canvas_attrs : gset string.
(** Whether ReportLab raises when asked for this widget; a call that
    raises leaves the canvas as it was. *)
Variable acroform_rejects : widget num -> bool.
(** What ReportLab itself paints on the page when it adds this widget: the
    border of a field asked for with [forceBorder=True]. *)
Variable acroform_paints : widget num -> list (drawing num).
(** Whether [c.rect] raises when asked for this rectangle (it has to print
    the four numbers). *)
Variable rect_rejects : drawing num -> bool.

Definition A4_WIDTH_PT : num := fst A4.
Definition A4_HEIGHT_PT : num := snd A4.
Definition CSS_PX_TO_PT : num := num_of_Z 72 / num_of_Z 96.

(** *** The canvas *)

Definition Canvas (path : string) (size : num * num) : canvas num :=
  {| filename := path; pagesize := size;
     acroform := []; code := []; pages_done := [] |}.

(** [c.name] where the code expects the form of the canvas.  The form
    shares its state with the canvas: the record keeps the widgets of the
    form and the drawing code of the page side by side. *)
Definition c_getattr (name : string) (c : canvas num) : result (canvas num) :=
  if decide (name ∈ Canvas_attrs) then Ok c else Raised AttributeError.

Definition form_add (w : widget num) (c : canvas num) : result (canvas num) :=
  if acroform_rejects w then Raised AcroFormError
  else Ok {| filename := filename c; pagesize := pagesize c;
             acroform := acroform c ++ [w];
             code := code c ++ acroform_paints w;
             pages_done := pages_done c |}.

Definition form_checkbox (name : string) (x y size : num) (checked : bool) :=
  form_add (Checkbox name x y size checked).

Definition form_textfield (name tooltip : string) (x y width height : num)
    (style : text_style) :=
  form_add (TextField name tooltip x y width height style).

Definition c_rect (x y width height : num) (stroke fill : Z)
    (c : canvas num) : result (canvas num) :=
  if rect_rejects (Rect x y width height stroke fill) then Raised CanvasError
  else Ok {| filename := filename c; pagesize := pagesize c;
             acroform := acroform c;
             code := code c ++ [Rect x y width height stroke fill];
             pages_done := pages_done c |}.

Definition showPage (c : canvas num) : canvas num :=
  {| filename := filename c; pagesize := pagesize c;
     acroform := []; code := [];
     pages_done := pages_done c ++
       [{| mediabox := pagesize c; annots := acroform c;
           graphics := code c |}] |}.

(** [save] first ends a page that has drawing code left. *)
Definition save (c : canvas num) (fs : filesystem num) : filesystem num :=
  let c :=
    match code c with
    | [] => c
    | _ :: _ => showPage c
    end in
  <[filename c := pages_done c]> fs.

(** *** The body of the loop over [fields] *)

(** Lines 67 to 72: CSS pixels to PDF points, y inverted. *)
Definition x_pt (f : field num) : num := f_x f * CSS_PX_TO_PT.
Definition y_pt_css (f : field num) : num := f_y f.
Definition h_pt (f : field num) : num := f_height f * CSS_PX_TO_PT.
Definition w_pt (f : field num) : num := f_width f * CSS_PX_TO_PT.
Definition y_pt (f : field num) : num :=
  A4_HEIGHT_PT - (y_pt_css f * CSS_PX_TO_PT) - h_pt f.

(** Lines 79 and 80: [w_pt] and [h_pt] as rebound by the size policy. *)
Definition w_pt_min (f : field num) : num :=
  if w_pt f <? num_of_Z 20 then py_max (w_pt f) (num_of_Z 40) else w_pt f.
Definition h_pt_min (f : field num) : num :=
  if h_pt f <? num_of_Z 10 then py_max (h_pt f) (num_of_Z 14) else h_pt f.

(** Line 83: [tag == 'input' and typ in ('checkbox',)]. *)
Definition is_checkbox (f : field num) : bool :=
  String.eqb (f_tag f) "input" && existsb (String.eqb (f_type f)) ["checkbox"].

Definition add_field (c : canvas num) (f : field num) : result (canvas num) :=
  let x_pt := x_pt f in
  let y_pt := y_pt f in
  let name := f_name f in
  let w_pt := w_pt_min f in
  let h_pt := h_pt_min f in
  if is_checkbox f then
    form_checkbox name x_pt y_pt (py_min w_pt h_pt) false c
  else
    match form_textfield name name x_pt y_pt w_pt h_pt UnderlinedForced c with
    | Ok c' => Ok c'
    | Raised _ =>
        c' ← c_rect x_pt y_pt w_pt h_pt 1 0 c;
        form_textfield name name x_pt y_pt w_pt h_pt Plain c'
    end.

(** [for f in fields: ...] *)
Fixpoint add_fields (c : canvas num) (fields : list (field num))
    : result (canvas num) :=
  match fields with
  | [] => Ok c
  | f :: rest => c' ← add_field c f; add_fields c' rest
  end.

Definition make_overlay_pdf (overlay_path : string)
    (fields : list (field num)) (fs : filesystem num)
    : result (filesystem num) :=
  let c := Canvas overlay_path A4 in
  form ← c_getattr "acroform" c;
  c ← add_fields form fields;
  Ok (save (showPage c) fs).
End Overlay.

(** ** [merge_pdfs] *)

Section Merge.
Context {num : Type}.

(** [PageMerge(page).add(overlay_page).render()]: the base page after
    pdfrw has stamped the overlay page on it.  The overlay page is only
    read. *)
Variable render : page num -> page num -> page num.

(** [PdfReader(path)] parses the file into objects of its own.  The
    files of the model are PDF files pdfrw can parse; where there is no
    file, pdfrw turns the error of [open] into its [PdfParseError]. *)
Definition PdfReader (path : string) (fs : filesystem num)
    : result (document num) :=
  match fs !! path with
  | Some d => Ok d
  | None => Raised PdfParseError
  end.

(** [for i, page in enumerate(base.pages): ...], from index [i] on.  The
    loop updates every page object of [base] in place; the result is the
    page list of [base] after the loop. *)
Fixpoint merge_pages (overlay : document num) (i : nat)
    (pages : list (page num)) : result (list (page num)) :=
  match pages with
  | [] => Ok []
  | page :: rest =>
      overlay_page ←
        py_index overlay (Z.min (Z.of_nat i) (Z.of_nat (length overlay) - 1));
      rest' ← merge_pages overlay (S i) rest;
      Ok (render page overlay_page :: rest')
  end.

(** [PdfWriter().write(final_out_path, base)] is the only write. *)
Definition merge_pdfs (base_pdf_path overlay_pdf_path final_out_path : string)
    (fs : filesystem num) : result (filesystem num) :=
  base ← PdfReader base_pdf_path fs;
  overlay ← PdfReader overlay_pdf_path fs;
  base' ← merge_pages overlay 0 base;
  Ok (<[final_out_path := base']> fs).
End Merge.

(** ** Vocabulary of the statements *)

(** The number a double stands for (0 for the infinities and NaN). *)
Definition SF2Q (d : spec_float) : Q :=
  match d with
  | S754_finite s m e =>
      ((if s then -1 else 1) * inject_Z (Zpos m) * Qpower 2 e)%Q
  | _ => 0%Q
  end.

Section Widgets.
Context {num : Type} `{Arith num}.

Definition w_name (w : widget num) : string :=
  match w with
  | Checkbox name _ _ _ _ => name
  | TextField name _ _ _ _ _ _ => name
  end.

Definition w_x (w : widget num) : num :=
  match w with
  | Checkbox _ x _ _ _ => x
  | TextField _ _ x _ _ _ _ => x
  end.

Definition w_y (w : widget num) : num :=
  match w with
  | Checkbox _ _ y _ _ => y
  | TextField _ _ _ y _ _ _ => y
  end.

(** A checkbox is a square of side [size]. *)
Definition w_width (w : widget num) : num :=
  match w with
  | Checkbox _ _ _ size _ => size
  | TextField _ _ _ _ width _ _ => width
  end.

Definition w_height (w : widget num) : num :=
  match w with
  | Checkbox _ _ _ size _ => size
  | TextField _ _ _ _ _ height _ => height
  end.

(** The widgets that ask ReportLab for a border style. *)
Definition is_styled (w : widget num) : bool :=
  match w with
  | TextField _ _ _ _ _ _ UnderlinedForced => true
  | _ => false
  end.

Variable A4 : num * num.

(** The three calls of the loop body, as the widgets they ask for. *)
Definition checkbox_call (f : field num) : widget num :=
  Checkbox (f_name f) (x_pt f) (y_pt A4 f)
           (py_min (w_pt_min f) (h_pt_min f)) false.

Definition textfield_call (style : text_style) (f : field num) : widget num :=
  TextField (f_name f) (f_name f) (x_pt f) (y_pt A4 f)
            (w_pt_min f) (h_pt_min f) style.

Variable acroform_rejects : widget num -> bool.

(** The widget one iteration leaves on the form, when it does not raise. *)
Definition emitted (f : field num) : widget num :=
  if is_checkbox f then checkbox_call f
  else if acroform_rejects (textfield_call UnderlinedForced f)
       then textfield_call Plain f
       else textfield_call UnderlinedForced f.
End Widgets.

(** A ReportLab that cannot honour the requested border style, and one that
    honours everything. *)
Definition degraded_backend {num : Type} (w : widget num) : bool := is_styled w.
Definition healthy_backend {num : Type} (w : widget num) : bool := false.

(** The attributes of ReportLab's [Canvas] that [main.py] uses or means:
    the form of a canvas is its property [acroForm]. *)
Definition reportlab_Canvas_attrs : gset string :=
  list_to_set ["acroForm"; "rect"; "showPage"; "save"].

(** A ReportLab that paints the border of a [forceBorder] field as a
    rectangle, stroked and filled, and nothing for any other widget. *)
Definition border_painter {num : Type} (w : widget num) : list (drawing num) :=
  match w with
  | TextField _ _ x y width height UnderlinedForced =>
      [Rect x y width height 1 1]
  | _ => []
  end.

(** A canvas that draws every rectangle. *)
Definition any_rect {num : Type} (r : drawing num) : bool := false.

(** pdfrw's [PageMerge]: the content of the overlay page is drawn after the
    base page's, as a form XObject; the box and the annotations of the page
    stay the base page's. *)
Definition stamp {num : Type} (base overlay : page num) : page num :=
  {| mediabox := mediabox base;
     annots := annots base;
     graphics := graphics base ++ graphics overlay |}.

(** ** Inputs of the examples *)

Section Samples.
Context {num : Type} `{Arith num}.
Local Open Scope num_scope.

(** A decimal literal [n/100], such as [841.89]. *)
Definition hundredths (n : Z) : num := num_of_Z n / num_of_Z 100.

(** The page of the specification's examples: 595.27pt by 841.89pt. *)
Definition page_841_89 : num * num := (hundredths 59527, hundredths 84189).

(** [A4] the way [reportlab.lib.pagesizes] computes it: [inch = 72.0],
    [cm = inch / 2.54], [mm = cm * 0.1], [A4 = (210 * mm, 297 * mm)]. *)
Definition reportlab_A4 : num * num :=
  let inch := num_of_Z 72 in
  let cm := inch / hundredths 254 in
  let mm := cm * (num_of_Z 1 / num_of_Z 10) in
  (num_of_Z 210 * mm, num_of_Z 297 * mm).

Definition box_field (tag type name : string) (x y width height : num)
    : field num :=
  {| f_tag := tag; f_type := type; f_name := name;
     f_x := x; f_y := y; f_width := width; f_height := height;
     f_options := None |}.

(** [{x:100, y:50, width:200, height:20}] *)
Definition field_100_50_200_20 : field num :=
  box_field "input" "text" "surname"
            (num_of_Z 100) (num_of_Z 50) (num_of_Z 200) (num_of_Z 20).

(** Text inputs 20px, 33.33px and 100/3 px wide, all 20px high. *)
Definition field_w20 : field num :=
  box_field "input" "text" "zip"
            (num_of_Z 0) (num_of_Z 0) (num_of_Z 20) (num_of_Z 20).
Definition field_w33_33 : field num :=
  box_field "input" "text" "city"
            (num_of_Z 0) (num_of_Z 0) (hundredths 3333) (num_of_Z 20).
Definition field_w100_3 : field num :=
  box_field "input" "text" "town"
            (num_of_Z 0) (num_of_Z 0) (num_of_Z 100 / num_of_Z 3) (num_of_Z 20).

(** A text input 40px wide and 16px high, a checkbox of 13px, a hidden
    input of size zero, and a text area 1200px down the document. *)
Definition field_40_16 : field num :=
  box_field "input" "email" "mail"
            (num_of_Z 8) (num_of_Z 8) (num_of_Z 40) (num_of_Z 16).
Definition field_checkbox_13 : field num :=
  box_field "input" "checkbox" "agree"
            (num_of_Z 8) (num_of_Z 40) (num_of_Z 13) (num_of_Z 13).
Definition field_zero : field num :=
  box_field "input" "hidden" "agree"
            (num_of_Z 0) (num_of_Z 0) (num_of_Z 0) (num_of_Z 0).
Definition field_y1200 : field num :=
  box_field "textarea" "textarea" "notes"
            (num_of_Z 8) (num_of_Z 1200) (num_of_Z 400) (num_of_Z 80).

(** Pages of a rendered document and of an overlay, told apart by their
    content. *)
Definition base_page (n : Z) : page num :=
  {| mediabox := page_841_89; annots := [];
     graphics :=
       [Rect (num_of_Z 0) (num_of_Z n) (num_of_Z 10) (num_of_Z 10) 1 1] |}.
Definition overlay_page_of (fields : list (field num)) : page num :=
  {| mediabox := page_841_89;
     annots := map (emitted page_841_89 healthy_backend) fields;
     graphics :=
       concat (map border_painter
                   (map (emitted page_841_89 healthy_backend) fields)) |}.

(** Controls of a page, in document order: the last one, at index 4, is an
    [input] without name, id or placeholder. *)
Definition control (tag type name id : string) (placeholder : option string)
    : element num :=
  {| tagName := tag; el_type := Some type; el_name := name; el_id := id;
     el_placeholder := placeholder; el_options := [];
     getBoundingClientRect :=
       {| r_x := num_of_Z 8; r_y := num_of_Z 8;
          r_width := num_of_Z 120; r_height := num_of_Z 18 |} |}.

Definition five_controls : list (element num) :=
  [control "INPUT" "text" "surname" "f1" (Some "Your surname");
   control "INPUT" "email" EmptyString "mail" (Some "you@example.org");
   control "TEXTAREA" "textarea" EmptyString EmptyString (Some "Notes");
   control "SELECT" "select-one" EmptyString EmptyString None;
   control "INPUT" "text" EmptyString EmptyString (Some EmptyString)].
End Samples.

(** A text area one page high whose top is 2^-42 px below the top of the
    page, in doubles. *)
Definition field_page_high : field spec_float :=
  box_field "textarea" "textarea" "notes"
            (num_of_Z 8) (S754_finite false 4503599627370496 (-94))
            (num_of_Z 400) (S754_finite false 4936893784432963 (-42)).

(** ** The program: [render_html_to_pdf], [run] and the [__main__] block *)

(** What ends a run early: a global name that is not bound, [sys.exit], a
    failure of the browser, or an exception of the two PDF steps. *)
Inductive error :=
| NameError (name : string)
| SystemExit (status : Z)
| PlaywrightError
| Library (e : exn).

Inductive outcome (A : Type) : Type :=
| Returned (a : A)
| Failed (e : error).
Arguments Returned {A} a.
Arguments Failed {A} e.

Section Program.
Context {num : Type} `{Arith num}.

(** What the program can change: the PDF files, the JSON files (a file
    written by [json.dump(fields, ...)] is kept as the list it holds), the
    directories asked for and what has been printed, one entry per call
    of [print].  The operating system is taken to grant every request. *)
Record world := {
  pdfs : filesystem num;
  jsons : gmap string (list (field num));
  dirs : gset string;
  stdout : list string;
}.

Definition action (A : Type) : Type := world -> world * outcome A.

#[global] Instance action_ret : MRet action := fun A a w => (w, Returned a).
#[global] Instance action_bind : MBind action := fun A B k m w =>
  match m w with
  | (w', Returned a) => k a w'
  | (w', Failed e) => (w', Failed e)
  end.

Definition raise {A : Type} (e : error) : action A := fun w => (w, Failed e).

(** ReportLab and pdfrw, as in the sections above. *)
Variable A4 : num * num.
Variable Canvas_attrs : gset string.
Variable acroform_rejects : widget num -> bool.
Variable acroform_paints : widget num -> list (drawing num).
Variable rect_rejects : drawing num -> bool.
Variable render : page num -> page num -> page num.
(** What Chromium makes of the file at a path: the pages [page.pdf] prints
    and the elements [querySelectorAll('input, select, textarea')] finds,
    or a failure of [launch] or [goto]. *)
Variable browser : string -> option (document num * list (element num)).
(** [os.path.join(a, name)] for a plain file name is a prefix that depends
    on [a] alone (nothing, [a], or [a] and a separator) followed by the
    name. *)
Variable join_prefix : string -> string.
(** The module's global variables that hold strings. *)
Variable globals : gmap string string.

Definition load_global (name : string) : action string := fun w =>
  match globals !! name with
  | Some v => (w, Returned v)
  | None => (w, Failed (NameError name))
  end.

Definition print (line : string) : action unit := fun w =>
  ({| pdfs := pdfs w; jsons := jsons w; dirs := dirs w;
      stdout := stdout w ++ [line] |}, Returned tt).

Definition os_makedirs (path : string) : action unit := fun w =>
  ({| pdfs := pdfs w; jsons := jsons w; dirs := {[path]} ∪ dirs w;
      stdout := stdout w |}, Returned tt).

Definition os_path_join (a name : string) : string :=
  (join_prefix a ++ name)%string.

Definition json_dump (fields : list (field num)) (path : string)
    : action unit := fun w =>
  ({| pdfs := pdfs w; jsons := <[path := fields]> (jsons w); dirs := dirs w;
      stdout := stdout w |}, Returned tt).

(** A step that works on the PDF files and writes nothing when it raises. *)
Definition pdf_step (step : filesystem num -> result (filesystem num))
    : action unit := fun w =>
  match step (pdfs w) with
  | Ok fs => ({| pdfs := fs; jsons := jsons w; dirs := dirs w;
                 stdout := stdout w |}, Returned tt)
  | Raised e => (w, Failed (Library e))
  end.

Definition render_html_to_pdf (html_path out_pdf : string)
    : action (list (field num)) := fun w =>
  match browser html_path with
  | None => (w, Failed PlaywrightError)
  | Some (printed, nodes) =>
      ({| pdfs := <[out_pdf := printed]> (pdfs w); jsons := jsons w;
          dirs := dirs w; stdout := stdout w |},
       Returned (extract_fields nodes))
  end.

Definition found_message (fields : list (field num)) (fields_json : string)
    : string :=
  ("Found " ++ string_of_index (length fields) ++ " fields. Writing "
   ++ fields_json ++ " ...")%string.

Definition run : action unit :=
  out_dir ← load_global "out_dir";
  _ ← os_makedirs out_dir;
  out_dir ← load_global "out_dir";
  let base_pdf := os_path_join out_dir "base_render.pdf" in
  out_dir ← load_global "out_dir";
  let overlay_pdf := os_path_join out_dir "overlay.pdf" in
  out_dir ← load_global "out_dir";
  let final_pdf := os_path_join out_dir "final_fill.pdf" in
  out_dir ← load_global "out_dir";
  let fields_json := os_path_join out_dir "fields.json" in
  _ ← print "Rendering HTML to PDF with Playwright...";
  html_path ← load_global "html_path";
  fields ← render_html_to_pdf html_path base_pdf;
  _ ← print (found_message fields fields_json);
  _ ← json_dump fields fields_json;
  _ ← print "Creating overlay PDF with AcroForm fields (ReportLab)...";
  _ ← pdf_step (make_overlay_pdf A4 Canvas_attrs acroform_rejects
                                 acroform_paints rect_rejects
                                 overlay_pdf fields);
  _ ← print "Merging overlay onto base PDF...";
  _ ← pdf_step (merge_pdfs render base_pdf overlay_pdf final_pdf);
  out_dir ← load_global "out_dir";
  _ ← print (String "010" "Done. Files created in: " ++ out_dir)%string;
  _ ← print (" - " ++ base_pdf)%string;
  _ ← print (" - " ++ overlay_pdf)%string;
  _ ← print (" - " ++ final_pdf)%string;
  _ ← print (" - " ++ fields_json)%string;
  print (String "010"
    "Open final_fill.pdf in Adobe Reader or browser to test filling fields.").

(** The [__main__] block: [argv] is [sys.argv]. *)
Definition main (argv : list string) : action unit :=
  if (length argv <? 2)%nat then
    _ ← print "Usage: python run.py path/to/file.html";
    raise (SystemExit 1)
  else run.
End Program.
Arguments world : clear implicits.
Arguments action : clear implicits.

(** The string globals the module binds before [run] is called:
    [html_path] and [out_pdf]. *)
Definition module_globals (html_path out_pdf : string) : gmap string string :=
  <["html_path" := html_path]> (<["out_pdf" := out_pdf]> ∅).

(** ** Vocabulary of the further statements *)

(** An element without name, id and placeholder. *)
Definition unnamed {num : Type} (el : element num) : Prop :=
  el_name el = EmptyString /\ el_id el = EmptyString /\
  (el_placeholder el = None \/ el_placeholder el = Some EmptyString).

Definition is_checkbox_widget {num : Type} (w : widget num) : bool :=
  match w with
  | Checkbox _ _ _ _ _ => true
  | TextField _ _ _ _ _ _ _ => false
  end.

Fixpoint has_char (c : ascii) (s : string) : bool :=
  match s with
  | EmptyString => false
  | String c' s' => Ascii.eqb c c' || has_char c s'
  end.

Section Fallback.
Context {num : Type} `{Arith num}.
Variable A4 : num * num.
Variable acroform_rejects : widget num -> bool.
Variable acroform_paints : widget num -> list (drawing num).
Variable rect_rejects : drawing num -> bool.

(** A text field whose styled widget ReportLab rejects. *)
Definition falls_back (f : field num) : bool :=
  negb (is_checkbox f)
  && acroform_rejects (textfield_call A4 UnderlinedForced f).

(** The rectangle the [except] branch draws for a field. *)
Definition fallback_rect (f : field num) : drawing num :=
  Rect (x_pt f) (y_pt A4 f) (w_pt_min f) (h_pt_min f) 1 0.

(** A field whose iteration raises: a rejected checkbox, or a text field
    rejected with its style whose fallback fails, at the rectangle or at
    the plain field. *)
Definition doomed (f : field num) : bool :=
  if is_checkbox f then acroform_rejects (checkbox_call A4 f)
  else acroform_rejects (textfield_call A4 UnderlinedForced f)
       && (rect_rejects (fallback_rect f)
           || acroform_rejects (textfield_call A4 Plain f)).

(** The exception of such an iteration: the rectangle's when the rectangle
    of the fallback fails, the form's otherwise. *)
Definition raised_by (f : field num) : exn :=
  if negb (is_checkbox f) && rect_rejects (fallback_rect f)
  then CanvasError else AcroFormError.

(** What an iteration that does not raise adds to the drawing code of the
    page: the rectangle of the [except] branch, and what ReportLab paints
    for the widget. *)
Definition drawn (f : field num) : list (drawing num) :=
  (if falls_back f then [fallback_rect f] else [])
  ++ acroform_paints (emitted A4 acroform_rejects f).
End Fallback.

(** ** A machine for the examples of the program *)

(** A browser that knows one file: a form with the five controls above,
    printed on two pages. *)
Definition sample_browser (path : string)
    : option (document Q * list (element Q)) :=
  if String.eqb path "form.html"
  then Some ([base_page 1; base_page 2], five_controls)
  else None.

(** [os.path.join] on a system whose separator is the slash, for a
    directory name that is not empty and does not end with one. *)
Definition slash_prefix (a : string) : string := (a ++ "/")%string.

(** The module with [out_dir] bound from outside. *)
Definition patched_globals (html_path : string) : gmap string string :=
  <["out_dir" := "output"]> (module_globals html_path "out.pdf").

Definition empty_world : world Q :=
  {| pdfs := ∅; jsons := ∅; dirs := ∅; stdout := [] |}.

(** A ReportLab that rejects checkboxes, and a canvas that draws no
    rectangle. *)
Definition no_checkbox_backend (w : widget Q) : bool := is_checkbox_widget w.
Definition no_rect {num : Type} (r : drawing num) : bool := true.

(** * Properties *)

(** ** Exact arithmetic *)

Lemma Qltb_lt (a b : Q) : Qltb a b = true <-> (a < b)%Q.
Proof.
  unfold Qltb. rewrite Qlt_alt. destruct (a ?= b)%Q; split; congruence.
Qed.


Lemma CSS_PX_TO_PT_Q : (@CSS_PX_TO_PT Q _ == 3 # 4)%Q.
Proof. reflexivity. Qed.

Lemma x_pt_Q (f : field Q) : (x_pt f == f_x f * (3 # 4))%Q.
Proof.
  unfold x_pt. cbn [num_mul Q_arith]. rewrite CSS_PX_TO_PT_Q. reflexivity.
Qed.

Lemma w_pt_Q (f : field Q) : (w_pt f == f_width f * (3 # 4))%Q.
Proof.
  unfold w_pt. cbn [num_mul Q_arith]. rewrite CSS_PX_TO_PT_Q. reflexivity.
Qed.

Lemma h_pt_Q (f : field Q) : (h_pt f == f_height f * (3 # 4))%Q.
Proof.
  unfold h_pt. cbn [num_mul Q_arith]. rewrite CSS_PX_TO_PT_Q. reflexivity.
Qed.

Lemma y_pt_Q (A4 : Q * Q) (f : field Q) :
  (y_pt A4 f == snd A4 - f_y f * (3 # 4) - h_pt f)%Q.
Proof.
  unfold y_pt, y_pt_css, A4_HEIGHT_PT. cbn [num_mul num_sub Q_arith].
  rewrite CSS_PX_TO_PT_Q. reflexivity.
Qed.

(** ** IEEE doubles *)

Lemma SFcompare_antisym (a b : spec_float) (c : comparison) :
  SFcompare a b = Some c -> SFcompare b a = Some (CompOpp c).
Proof.
  destruct a as [sa|sa| |sa ma ea], b as [sb|sb| |sb mb eb]; simpl;
    try discriminate; intros [= <-];
    try (destruct sa; reflexivity); try (destruct sb; reflexivity);
    try (destruct sa, sb; reflexivity).
  f_equal. destruct sa, sb; try reflexivity.
  - rewrite (Z.compare_antisym ea eb).
    destruct (ea ?= eb)%Z; simpl; try reflexivity.
    rewrite (ZC4 mb ma). reflexivity.
  - rewrite (Z.compare_antisym ea eb).
    destruct (ea ?= eb)%Z; simpl; try reflexivity.
    exact (ZC4 mb ma).
Qed.

Lemma SFcompare_None (a b : spec_float) :
  SFcompare a b = None -> a = S754_nan \/ b = S754_nan.
Proof.
  destruct a as [sa|sa| |sa ma ea], b as [sb|sb| |sb mb eb]; simpl;
    try discriminate; auto.
Qed.

(** Not below a number and not a NaN: at or above it. *)
Lemma SFltb_false_SFleb (a b : spec_float) :
  a <> S754_nan -> b <> S754_nan -> SFltb a b = false -> SFleb b a = true.
Proof.
  intros Ha Hb. unfold SFltb, SFleb.
  destruct (SFcompare a b) as [c|] eqn:E.
  - rewrite (SFcompare_antisym a b c E). destruct c; simpl; congruence.
  - apply SFcompare_None in E. tauto.
Qed.

Lemma SFltb_raise_exponent (w : spec_float) (m : positive) (e e' : Z) :
  (e < e')%Z ->
  SFltb w (S754_finite false m e) = true ->
  SFltb w (S754_finite false m e') = true.
Proof.
  intros He. unfold SFltb, SFcompare.
  destruct w as [s|[|]| |[|] mw ew]; try discriminate; try reflexivity.
  destruct (ew ?= e)%Z eqn:E1; try discriminate; intros _.
  - apply Z.compare_eq_iff in E1. subst ew.
    rewrite (proj2 (Z.compare_lt_iff e e') He). reflexivity.
  - change (ew < e)%Z in E1.
    rewrite (proj2 (Z.compare_lt_iff ew e')) by lia. reflexivity.
Qed.

Lemma SFltb_raise_mantissa (w : spec_float) (m m' : positive) (e : Z) :
  (m < m')%positive ->
  SFltb w (S754_finite false m e) = true ->
  SFltb w (S754_finite false m' e) = true.
Proof.
  intros Hm. unfold SFltb, SFcompare.
  destruct w as [s|[|]| |[|] mw ew]; try discriminate; try reflexivity.
  destruct (ew ?= e)%Z; try discriminate; try reflexivity.
  change (Pos.compare_cont Eq mw m) with (mw ?= m)%positive.
  change (Pos.compare_cont Eq mw m') with (mw ?= m')%positive.
  destruct (mw ?= m)%positive eqn:E; try discriminate. intros _.
  change (mw < m)%positive in E.
  rewrite (proj2 (Pos.compare_lt_iff mw m')) by lia. reflexivity.
Qed.

Lemma SFleb_lower_exponent (w : spec_float) (m : positive) (e e' : Z) :
  (e' < e)%Z ->
  SFleb (S754_finite false m e) w = true ->
  SFleb (S754_finite false m e') w = true.
Proof.
  intros He. unfold SFleb, SFcompare.
  destruct w as [s|[|]| |[|] mw ew]; try discriminate; try reflexivity.
  destruct (e ?= ew)%Z eqn:E1; try discriminate; intros _.
  - apply Z.compare_eq_iff in E1. subst ew.
    rewrite (proj2 (Z.compare_lt_iff e' e) He). reflexivity.
  - change (e < ew)%Z in E1.
    rewrite (proj2 (Z.compare_lt_iff e' ew)) by lia. reflexivity.
Qed.

(** Rounding a positive mantissa never gives a NaN. *)
Lemma shr_1_nonneg (mrs : shr_record) :
  (0 <= shr_m mrs)%Z -> (0 <= shr_m (shr_1 mrs))%Z.
Proof.
  destruct mrs as [[|[p|p|]|p] r s]; simpl; lia.
Qed.

Lemma iter_pos_shr_1_nonneg (p : positive) (mrs : shr_record) :
  (0 <= shr_m mrs)%Z -> (0 <= shr_m (SpecFloat.iter_pos shr_1 p mrs))%Z.
Proof.
  revert mrs. induction p as [p IH|p IH|]; intros mrs Hm; simpl.
  - apply IH, IH, shr_1_nonneg, Hm.
  - apply IH, IH, Hm.
  - apply shr_1_nonneg, Hm.
Qed.

Lemma shr_fexp_nonneg (prec emax m e : Z) (l : location) :
  (0 <= m)%Z -> (0 <= shr_m (fst (shr_fexp prec emax m e l)))%Z.
Proof.
  intros Hm. unfold shr_fexp, shr.
  assert (H0 : (0 <= shr_m (shr_record_of_loc m l))%Z)
    by (destruct l as [|[| |]]; exact Hm).
  destruct (fexp prec emax (Zdigits2 m + e) - e)%Z; simpl;
    auto using iter_pos_shr_1_nonneg.
Qed.

Lemma round_nearest_even_nonneg (m : Z) (l : location) :
  (0 <= m)%Z -> (0 <= round_nearest_even m l)%Z.
Proof.
  intros Hm. destruct l as [|[| |]]; simpl; try lia.
  destruct (Z.even m); lia.
Qed.

Lemma binary_round_aux_not_nan (prec emax : Z) (s : bool) (m : positive)
    (e : Z) (l : location) :
  binary_round_aux prec emax s (Zpos m) e l <> S754_nan.
Proof.
  unfold binary_round_aux.
  pose proof (shr_fexp_nonneg prec emax (Zpos m) e l) as H1.
  destruct (shr_fexp prec emax (Zpos m) e l) as [mrs' e']. simpl in H1.
  pose proof (shr_fexp_nonneg prec emax
                (round_nearest_even (shr_m mrs') (loc_of_shr_record mrs'))
                e' loc_Exact) as H2.
  destruct (shr_fexp prec emax _ e' loc_Exact) as [mrs'' e'']. simpl in H2.
  specialize (H1 ltac:(lia)).
  specialize (H2 (round_nearest_even_nonneg _ _ H1)).
  destruct (shr_m mrs'') as [|p|p]; try discriminate; [|lia].
  destruct (e'' <=? emax - prec)%Z; discriminate.
Qed.

Lemma SFmul_finite_not_nan (prec emax : Z) (a : spec_float) (s : bool)
    (m : positive) (e : Z) :
  a <> S754_nan -> SFmul prec emax a (S754_finite s m e) <> S754_nan.
Proof.
  intros Ha. destruct a as [sa|sa| |sa ma ea]; simpl; try discriminate.
  - contradiction.
  - apply binary_round_aux_not_nan.
Qed.


Lemma of_Z_constants :
  Binary64.of_Z 0 = S754_zero false /\
  Binary64.of_Z 10 = S754_finite false 5629499534213120 (-49) /\
  Binary64.of_Z 14 = S754_finite false 7881299347898368 (-49) /\
  Binary64.of_Z 20 = S754_finite false 5629499534213120 (-48) /\
  Binary64.of_Z 40 = S754_finite false 5629499534213120 (-47).
Proof. repeat split; vm_compute; reflexivity. Qed.

(** [72.0 / 96.0] is the double 0.75. *)
Lemma CSS_PX_TO_PT_binary64 :
  CSS_PX_TO_PT (num := spec_float) = S754_finite false 6755399441055744 (-53).
Proof. vm_compute. reflexivity. Qed.

Lemma pt_not_nan (px : spec_float) :
  px <> S754_nan -> num_mul px (CSS_PX_TO_PT (num := spec_float)) <> S754_nan.
Proof.
  intros Hpx. rewrite CSS_PX_TO_PT_binary64. apply SFmul_finite_not_nan, Hpx.
Qed.

Lemma w_pt_min_binary64 (f : field spec_float) :
  (SFltb (w_pt f) (num_of_Z 20) = true -> w_pt_min f = num_of_Z 40) /\
  (SFltb (w_pt f) (num_of_Z 20) = false -> w_pt_min f = w_pt f).
Proof.
  destruct of_Z_constants as (_ & _ & _ & E20 & E40).
  unfold w_pt_min, py_max. cbn [num_ltb num_of_Z binary64_arith].
  split; intros Hw; rewrite Hw; [|reflexivity].
  rewrite E20 in Hw. rewrite E40.
  rewrite (SFltb_raise_exponent _ _ (-48) (-47) ltac:(lia) Hw). reflexivity.
Qed.

Lemma h_pt_min_binary64 (f : field spec_float) :
  (SFltb (h_pt f) (num_of_Z 10) = true -> h_pt_min f = num_of_Z 14) /\
  (SFltb (h_pt f) (num_of_Z 10) = false -> h_pt_min f = h_pt f).
Proof.
  destruct of_Z_constants as (_ & E10 & E14 & _).
  unfold h_pt_min, py_max. cbn [num_ltb num_of_Z binary64_arith].
  split; intros Hh; rewrite Hh; [|reflexivity].
  rewrite E10 in Hh. rewrite E14.
  rewrite (SFltb_raise_mantissa _ 5629499534213120 7881299347898368 _
             ltac:(lia) Hh).
  reflexivity.
Qed.

Lemma w_pt_min_binary64_ge_20 (f : field spec_float) :
  f_width f <> S754_nan -> SFleb (num_of_Z 20) (w_pt_min f) = true.
Proof.
  intros Hw. destruct (w_pt_min_binary64 f) as [Hsmall Hlarge].
  destruct (SFltb (w_pt f) (num_of_Z 20)) eqn:E.
  - rewrite (Hsmall eq_refl). vm_compute. reflexivity.
  - rewrite (Hlarge eq_refl).
    apply SFltb_false_SFleb; [apply pt_not_nan, Hw| |exact E].
    vm_compute. discriminate.
Qed.

Lemma h_pt_min_binary64_ge_10 (f : field spec_float) :
  f_height f <> S754_nan -> SFleb (num_of_Z 10) (h_pt_min f) = true.
Proof.
  intros Hh. destruct (h_pt_min_binary64 f) as [Hsmall Hlarge].
  destruct (SFltb (h_pt f) (num_of_Z 10)) eqn:E.
  - rewrite (Hsmall eq_refl). vm_compute. reflexivity.
  - rewrite (Hlarge eq_refl).
    apply SFltb_false_SFleb; [apply pt_not_nan, Hh| |exact E].
    vm_compute. discriminate.
Qed.

Lemma checkbox_side_binary64_ge_10 (f : field spec_float) :
  f_width f <> S754_nan -> f_height f <> S754_nan ->
  SFleb (num_of_Z 10) (py_min (w_pt_min f) (h_pt_min f)) = true.
Proof.
  intros Hw Hh. unfold py_min.
  destruct (num_ltb (h_pt_min f) (w_pt_min f));
    [apply h_pt_min_binary64_ge_10, Hh|].
  pose proof (w_pt_min_binary64_ge_20 f Hw) as H20.
  destruct of_Z_constants as (_ & E10 & _ & E20 & _).
  cbn [num_of_Z binary64_arith] in *. rewrite E20 in H20. rewrite E10.
  apply (SFleb_lower_exponent _ _ (-48) (-49)); [lia|exact H20].
Qed.

Lemma SFleb_10_positive (w : spec_float) :
  SFleb (Binary64.of_Z 10) w = true -> SFltb (Binary64.of_Z 0) w = true.
Proof.
  destruct of_Z_constants as (-> & -> & _).
  unfold SFleb, SFltb, SFcompare.
  destruct w as [s|[|]| |[|] m e]; try discriminate; reflexivity.
Qed.

Lemma SFleb_20_positive (w : spec_float) :
  SFleb (Binary64.of_Z 20) w = true -> SFltb (Binary64.of_Z 0) w = true.
Proof.
  destruct of_Z_constants as (-> & _ & _ & -> & _).
  unfold SFleb, SFltb, SFcompare.
  destruct w as [s|[|]| |[|] m e]; try discriminate; reflexivity.
Qed.

(** The bounds on the widget an iteration emits, on doubles. *)
Lemma emitted_size_binary64 (A4 : spec_float * spec_float)
    (rejects : widget spec_float -> bool) (f : field spec_float) :
  f_width f <> S754_nan -> f_height f <> S754_nan ->
  match emitted A4 rejects f with
  | Checkbox _ _ _ size _ => SFleb (num_of_Z 10) size = true
  | TextField _ _ _ _ width height _ =>
      SFleb (num_of_Z 20) width = true /\ SFleb (num_of_Z 10) height = true
  end /\
  SFltb (num_of_Z 0) (w_width (emitted A4 rejects f)) = true /\
  SFltb (num_of_Z 0) (w_height (emitted A4 rejects f)) = true.
Proof.
  intros Hw Hh.
  pose proof (w_pt_min_binary64_ge_20 f Hw) as H20.
  pose proof (h_pt_min_binary64_ge_10 f Hh) as H10.
  pose proof (checkbox_side_binary64_ge_10 f Hw Hh) as Hs.
  pose proof (SFleb_20_positive _ H20). pose proof (SFleb_10_positive _ H10).
  pose proof (SFleb_10_positive _ Hs).
  unfold emitted, checkbox_call, textfield_call.
  destruct (is_checkbox f); [|destruct (rejects _)]; simpl; auto.
Qed.

(** ** The loop of [make_overlay_pdf] *)

Section OverlayFacts.
Context {num : Type} `{Arith num}.
Variable A4 : num * num.
Variable acroform_rejects : widget num -> bool.
Variable acroform_paints : widget num -> list (drawing num).
Variable rect_rejects : drawing num -> bool.

(** One iteration, branch by branch. *)
Lemma add_field_cases (c : canvas num) (f : field num) :
  add_field A4 acroform_rejects acroform_paints rect_rejects c f
  = if doomed A4 acroform_rejects rect_rejects f
    then Raised (raised_by A4 rect_rejects f)
    else Ok {| filename := filename c; pagesize := pagesize c;
               acroform := acroform c ++ [emitted A4 acroform_rejects f];
               code := code c ++ drawn A4 acroform_rejects acroform_paints f;
               pages_done := pages_done c |}.
Proof.
  unfold add_field, doomed, raised_by, drawn, falls_back, emitted,
    form_checkbox, form_textfield, form_add, c_rect.
  fold (checkbox_call A4 f). fold (textfield_call A4 UnderlinedForced f).
  fold (textfield_call A4 Plain f). fold (fallback_rect A4 f).
  destruct (is_checkbox f); simpl.
  - destruct (acroform_rejects (checkbox_call A4 f)); reflexivity.
  - destruct (acroform_rejects (textfield_call A4 UnderlinedForced f)); simpl;
      [|reflexivity].
    destruct (rect_rejects (fallback_rect A4 f)); simpl; [reflexivity|].
    destruct (acroform_rejects (textfield_call A4 Plain f)); simpl;
      [reflexivity|].
    rewrite <- app_assoc. reflexivity.
Qed.

(** The loop: it stops at the first field whose iteration raises. *)
Lemma add_fields_cases (fields : list (field num)) (c : canvas num) :
  add_fields A4 acroform_rejects acroform_paints rect_rejects c fields
  = match List.find (doomed A4 acroform_rejects rect_rejects) fields with
    | Some f => Raised (raised_by A4 rect_rejects f)
    | None =>
        Ok {| filename := filename c; pagesize := pagesize c;
              acroform :=
                acroform c ++ map (emitted A4 acroform_rejects) fields;
              code := code c ++
                concat (map (drawn A4 acroform_rejects acroform_paints)
                            fields);
              pages_done := pages_done c |}
    end.
Proof.
  revert c. induction fields as [|f rest IH]; intros c; simpl.
  - rewrite !app_nil_r. destruct c; reflexivity.
  - rewrite add_field_cases.
    destruct (doomed A4 acroform_rejects rect_rejects f); simpl;
      [reflexivity|].
    rewrite IH.
    destruct (List.find (doomed A4 acroform_rejects rect_rejects) rest);
      [reflexivity|].
    simpl. rewrite <- !app_assoc. reflexivity.
Qed.

Lemma find_doomed_None (fields : list (field num)) :
  List.find (doomed A4 acroform_rejects rect_rejects) fields = None
  <-> Forall (fun f => doomed A4 acroform_rejects rect_rejects f = false)
             fields.
Proof.
  induction fields as [|f rest IH]; simpl.
  - split; [constructor|reflexivity].
  - destruct (doomed A4 acroform_rejects rect_rejects f) eqn:E.
    + split; [discriminate|]. intros Hall.
      apply Forall_cons in Hall as [Hf _]. congruence.
    + rewrite IH. split; [intros Hall; constructor; assumption|].
      intros Hall. apply Forall_cons in Hall as [_ Hrest]. exact Hrest.
Qed.

Lemma add_field_Ok (c c' : canvas num) (f : field num) :
  add_field A4 acroform_rejects acroform_paints rect_rejects c f = Ok c' ->
  acroform_rejects (emitted A4 acroform_rejects f) = false /\
  acroform c' = acroform c ++ [emitted A4 acroform_rejects f] /\
  pages_done c' = pages_done c /\ filename c' = filename c /\
  pagesize c' = pagesize c.
Proof.
  rewrite add_field_cases.
  destruct (doomed A4 acroform_rejects rect_rejects f) eqn:E; [discriminate|].
  intros [= <-]. simpl. split; [|tauto].
  revert E. unfold doomed, emitted.
  destruct (is_checkbox f); [tauto|].
  destruct (acroform_rejects (textfield_call A4 UnderlinedForced f)) eqn:Es;
    [|intros _; exact Es].
  simpl. intros E. apply orb_false_elim in E as [_ E]. exact E.
Qed.

(** With a ReportLab that builds the unstyled widgets and draws the
    rectangles, no field is doomed. *)
Lemma unstyled_accepted_not_doomed (f : field num) :
  (forall w, is_styled w = false -> acroform_rejects w = false) ->
  (forall r, rect_rejects r = false) ->
  doomed A4 acroform_rejects rect_rejects f = false.
Proof.
  intros Hplain Hrect. unfold doomed, checkbox_call, textfield_call.
  destruct (is_checkbox f).
  - apply Hplain. reflexivity.
  - rewrite Hrect, (Hplain (TextField _ _ _ _ _ _ Plain) eq_refl).
    apply andb_false_r.
Qed.

(** Line 63: without an attribute [acroform] the call ends there. *)
Lemma make_overlay_pdf_AttributeError (Canvas_attrs : gset string)
    (overlay_path : string) (fields : list (field num))
    (fs : filesystem num) :
  "acroform" ∉ Canvas_attrs ->
  make_overlay_pdf A4 Canvas_attrs acroform_rejects acroform_paints
                   rect_rejects overlay_path fields fs
  = Raised AttributeError.
Proof.
  intros Hno. unfold make_overlay_pdf, c_getattr.
  destruct (decide ("acroform" ∈ Canvas_attrs)); [contradiction|reflexivity].
Qed.
End OverlayFacts.

(** ** Geometry: lines 67 to 80 *)

(** C1. For every field descriptor the conversion computes
    [x_pt = x * 0.75], [w_pt = width * 0.75], [h_pt = height * 0.75] and
    [y_pt = page_height_pt - y * 0.75 - h_pt] with the converted height, and
    the widget the iteration emits sits at exactly that [x_pt] and [y_pt]:
    the flip is applied once and nothing moves the widget afterwards.  For
    the box [{x:100, y:50, width:200, height:20}] on a page 841.89pt high
    this gives 75, 150, 15 and 789.39, in exact arithmetic and on IEEE
    doubles alike; the scale [72.0 / 96.0] is the double 0.75. *)
Theorem px_to_pt_with_single_flip :
  (forall (A4 : Q * Q) (f : field Q),
      (x_pt f == f_x f * (3 # 4))%Q /\
      (w_pt f == f_width f * (3 # 4))%Q /\
      (h_pt f == f_height f * (3 # 4))%Q /\
      (y_pt A4 f == snd A4 - f_y f * (3 # 4) - h_pt f)%Q) /\
  (forall (A4 : Q * Q) (rejects : widget Q -> bool)
          (paints : widget Q -> list (drawing Q))
          (rect_rejects : drawing Q -> bool) (c c' : canvas Q) (f : field Q),
      add_field A4 rejects paints rect_rejects c f = Ok c' ->
      exists w, acroform c' = acroform c ++ [w] /\
                w_x w = x_pt f /\ w_y w = y_pt A4 f) /\
  ((x_pt (num := Q) field_100_50_200_20 == 75)%Q /\
   (w_pt_min (num := Q) field_100_50_200_20 == 150)%Q /\
   (h_pt_min (num := Q) field_100_50_200_20 == 15)%Q /\
   (y_pt (num := Q) page_841_89 field_100_50_200_20 == 78939 # 100)%Q) /\
  (x_pt (num := spec_float) field_100_50_200_20 = num_of_Z 75 /\
   w_pt_min (num := spec_float) field_100_50_200_20 = num_of_Z 150 /\
   h_pt_min (num := spec_float) field_100_50_200_20 = num_of_Z 15 /\
   y_pt (num := spec_float) page_841_89 field_100_50_200_20
   = hundredths 78939) /\
  CSS_PX_TO_PT (num := spec_float) = hundredths 75.
Proof.
  split; [|split; [|split; [|split]]]; [| | | |vm_compute; reflexivity].
  - intros A4 f. auto using x_pt_Q, w_pt_Q, h_pt_Q, y_pt_Q.
  - intros A4 rejects paints rect_rejects c c' f Hc.
    apply add_field_Ok in Hc as (_ & Ha & _).
    exists (emitted A4 rejects f). split; [exact Ha|].
    unfold emitted, checkbox_call, textfield_call.
    destruct (is_checkbox f); [|destruct (rejects _)]; split; reflexivity.
  - repeat split; vm_compute; reflexivity.
  - repeat split; vm_compute; reflexivity.
Qed.

Lemma px_to_pt_with_single_flip_witness :
  add_field page_841_89 healthy_backend border_painter any_rect
            (Canvas "overlay.pdf" page_841_89)
            (field_100_50_200_20 (num := Q))
  = Ok {| filename := "overlay.pdf"; pagesize := page_841_89;
          acroform := [emitted page_841_89 healthy_backend field_100_50_200_20];
          code :=
            border_painter
              (emitted page_841_89 healthy_backend field_100_50_200_20);
          pages_done := [] |} /\
  exists w : widget Q,
    [emitted page_841_89 healthy_backend field_100_50_200_20] = [] ++ [w] /\
    w_x w = x_pt field_100_50_200_20 /\
    w_y w = y_pt page_841_89 field_100_50_200_20.
Proof.
  split; [reflexivity|].
  exact (proj1 (proj2 px_to_pt_with_single_flip)
           page_841_89 healthy_backend border_painter any_rect
           (Canvas "overlay.pdf" page_841_89) _
           field_100_50_200_20 eq_refl).
Defined.

Lemma py_max_lt (a b : Q) : (a < b)%Q -> py_max a b = b.
Proof.
  intros Hab. unfold py_max. cbn. apply Qltb_lt in Hab. rewrite Hab.
  reflexivity.
Qed.

Lemma w_pt_min_small (f : field Q) : (w_pt f < 20)%Q -> w_pt_min f = 40%Q.
Proof.
  intros Hw. unfold w_pt_min. cbn [num_ltb num_of_Z Q_arith].
  rewrite (proj2 (Qltb_lt (w_pt f) (inject_Z 20)) Hw).
  apply (py_max_lt (w_pt f) (inject_Z 40)).
  eapply Qlt_trans; [exact Hw|reflexivity].
Qed.

Lemma w_pt_min_large (f : field Q) : ~ (w_pt f < 20)%Q -> w_pt_min f = w_pt f.
Proof.
  intros Hw. unfold w_pt_min. cbn [num_ltb num_of_Z Q_arith].
  destruct (Qltb (w_pt f) (inject_Z 20)) eqn:E; [|reflexivity].
  apply Qltb_lt in E. contradiction.
Qed.

Lemma h_pt_min_small (f : field Q) : (h_pt f < 10)%Q -> h_pt_min f = 14%Q.
Proof.
  intros Hh. unfold h_pt_min. cbn [num_ltb num_of_Z Q_arith].
  rewrite (proj2 (Qltb_lt (h_pt f) (inject_Z 10)) Hh).
  apply (py_max_lt (h_pt f) (inject_Z 14)).
  eapply Qlt_trans; [exact Hh|reflexivity].
Qed.

Lemma h_pt_min_large (f : field Q) : ~ (h_pt f < 10)%Q -> h_pt_min f = h_pt f.
Proof.
  intros Hh. unfold h_pt_min. cbn [num_ltb num_of_Z Q_arith].
  destruct (Qltb (h_pt f) (inject_Z 10)) eqn:E; [|reflexivity].
  apply Qltb_lt in E. contradiction.
Qed.

(** C2. The size policy has two thresholds per dimension: a converted width
    strictly below 20 is replaced by exactly 40 and any other width is left
    as it is; a converted height strictly below 10 is replaced by exactly 14
    and any other height is left as it is.  A field 20px wide ([w_pt = 15])
    gets width 40; a field whose converted width is 25 keeps 25; on IEEE
    doubles the 20px field gets 40.0 and the 33.33px field keeps its
    converted width.  The policy reads the same on IEEE doubles, with the
    comparison of doubles for "strictly below". *)
Theorem minimum_size_two_thresholds :
  (forall f : field Q,
      ((w_pt f < 20)%Q -> w_pt_min f = 40%Q) /\
      (~ (w_pt f < 20)%Q -> w_pt_min f = w_pt f) /\
      ((h_pt f < 10)%Q -> h_pt_min f = 14%Q) /\
      (~ (h_pt f < 10)%Q -> h_pt_min f = h_pt f)) /\
  ((w_pt (num := Q) field_w20 == 15)%Q /\
   w_pt_min (num := Q) field_w20 = 40%Q) /\
  ((w_pt (num := Q) field_w100_3 == 25)%Q /\
   (w_pt_min (num := Q) field_w100_3 == 25)%Q) /\
  (w_pt (num := spec_float) field_w20 = num_of_Z 15 /\
   w_pt_min (num := spec_float) field_w20 = num_of_Z 40 /\
   w_pt_min (num := spec_float) field_w33_33
   = w_pt (num := spec_float) field_w33_33) /\
  (forall f : field spec_float,
      (SFltb (w_pt f) (num_of_Z 20) = true -> w_pt_min f = num_of_Z 40) /\
      (SFltb (w_pt f) (num_of_Z 20) = false -> w_pt_min f = w_pt f) /\
      (SFltb (h_pt f) (num_of_Z 10) = true -> h_pt_min f = num_of_Z 14) /\
      (SFltb (h_pt f) (num_of_Z 10) = false -> h_pt_min f = h_pt f)).
Proof.
  split; [|split; [|split; [|split]]].
  - intros f.
    auto using w_pt_min_small, w_pt_min_large, h_pt_min_small, h_pt_min_large.
  - split; vm_compute; reflexivity.
  - split; vm_compute; reflexivity.
  - repeat split; vm_compute; reflexivity.
  - intros f. destruct (w_pt_min_binary64 f), (h_pt_min_binary64 f). auto.
Qed.

Lemma minimum_size_two_thresholds_witness :
  ((w_pt (num := Q) field_w20 < 20)%Q /\
   w_pt_min (num := Q) field_w20 = 40%Q) /\
  (~ (w_pt (num := Q) field_40_16 < 20)%Q /\
   w_pt_min (num := Q) field_40_16 = w_pt field_40_16) /\
  ((h_pt (num := Q) field_checkbox_13 < 10)%Q /\
   h_pt_min (num := Q) field_checkbox_13 = 14%Q) /\
  (~ (h_pt (num := Q) field_40_16 < 10)%Q /\
   h_pt_min (num := Q) field_40_16 = h_pt field_40_16).
Proof.
  pose proof (proj1 minimum_size_two_thresholds) as T.
  assert (Hw20 : (w_pt (num := Q) field_w20 < 20)%Q) by reflexivity.
  assert (Hw40 : ~ (w_pt (num := Q) field_40_16 < 20)%Q)
    by (vm_compute; discriminate).
  assert (Hh13 : (h_pt (num := Q) field_checkbox_13 < 10)%Q) by reflexivity.
  assert (Hh16 : ~ (h_pt (num := Q) field_40_16 < 10)%Q)
    by (vm_compute; discriminate).
  exact (conj (conj Hw20 (proj1 (T field_w20) Hw20))
         (conj (conj Hw40 (proj1 (proj2 (T field_40_16)) Hw40))
            (conj (conj Hh13 (proj1 (proj2 (proj2 (T field_checkbox_13))) Hh13))
               (conj Hh16 (proj2 (proj2 (proj2 (T field_40_16))) Hh16))))).
Defined.

(** ** Classification and the one-to-one correspondence: lines 65 to 97 *)





(** C4. Line 63 asks the canvas for an attribute [acroform].  A canvas
    without an attribute of that name, and ReportLab's is one (its form is
    the property [acroForm]), makes the call end there with
    [AttributeError], for every list of field descriptors and before the
    loop is entered: no widget is emitted and nothing is written at the
    overlay path, where the statement promises one widget per
    descriptor. *)
Theorem overlay_stops_before_the_loop
    (num : Type) (arith : Arith num) (A4 : num * num)
    (Canvas_attrs : gset string) (rejects : widget num -> bool)
    (paints : widget num -> list (drawing num))
    (rect_rejects : drawing num -> bool) (overlay_path : string)
    (fields : list (field num)) (fs : filesystem num) :
  "acroform" ∉ Canvas_attrs ->
  c_getattr Canvas_attrs "acroform" (Canvas overlay_path A4)
  = Raised AttributeError /\
  make_overlay_pdf A4 Canvas_attrs rejects paints rect_rejects
                   overlay_path fields fs
  = Raised AttributeError.
Proof.
  intros Hno. split; [|apply make_overlay_pdf_AttributeError, Hno].
  unfold c_getattr.
  destruct (decide ("acroform" ∈ Canvas_attrs)); [contradiction|reflexivity].
Qed.

Lemma overlay_stops_before_the_loop_witness :
  ("acroform" ∉ reportlab_Canvas_attrs) /\
  make_overlay_pdf reportlab_A4 reportlab_Canvas_attrs healthy_backend
                   border_painter any_rect "overlay.pdf"
                   [field_100_50_200_20 (num := spec_float)] ∅
  = Raised AttributeError.
Proof.
  assert (Hno : "acroform" ∉ reportlab_Canvas_attrs)
    by exact (bool_decide_eq_false_1
                ("acroform" ∈ reportlab_Canvas_attrs) eq_refl).
  exact (conj Hno
           (proj2 (overlay_stops_before_the_loop spec_float binary64_arith
                     reportlab_A4 reportlab_Canvas_attrs healthy_backend
                     border_painter any_rect "overlay.pdf"
                     [field_100_50_200_20] ∅ Hno))).
Defined.

(** ** Bounds on the widget size: lines 79 to 85 *)

Lemma w_pt_min_ge_20 (f : field Q) : (20 <= w_pt_min f)%Q.
Proof.
  destruct (Qlt_le_dec (w_pt f) 20) as [Hlt|Hge].
  - rewrite (w_pt_min_small f Hlt). discriminate.
  - rewrite (w_pt_min_large f (Qle_not_lt _ _ Hge)). exact Hge.
Qed.

Lemma h_pt_min_ge_10 (f : field Q) : (10 <= h_pt_min f)%Q.
Proof.
  destruct (Qlt_le_dec (h_pt f) 10) as [Hlt|Hge].
  - rewrite (h_pt_min_small f Hlt). discriminate.
  - rewrite (h_pt_min_large f (Qle_not_lt _ _ Hge)). exact Hge.
Qed.

Lemma py_min_glb (a b c : Q) : (c <= a)%Q -> (c <= b)%Q -> (c <= py_min a b)%Q.
Proof.
  intros Ha Hb. unfold py_min. cbn [num_ltb Q_arith].
  destruct (Qltb b a); assumption.
Qed.

Lemma checkbox_side_ge_10 (f : field Q) :
  (10 <= py_min (w_pt_min f) (h_pt_min f))%Q.
Proof.
  apply py_min_glb; [|apply h_pt_min_ge_10].
  apply Qle_trans with 20%Q; [discriminate|apply w_pt_min_ge_20].
Qed.

(** The bounds on the widget an iteration emits. *)
Lemma emitted_size (A4 : Q * Q) (rejects : widget Q -> bool) (f : field Q) :
  match emitted A4 rejects f with
  | Checkbox _ _ _ size _ => (10 <= size)%Q
  | TextField _ _ _ _ width height _ => (20 <= width)%Q /\ (10 <= height)%Q
  end /\
  (0 < w_width (emitted A4 rejects f))%Q /\
  (0 < w_height (emitted A4 rejects f))%Q.
Proof.
  pose proof (w_pt_min_ge_20 f) as Hw. pose proof (h_pt_min_ge_10 f) as Hh.
  pose proof (checkbox_side_ge_10 f) as Hs.
  assert (H10 : (0 < 10)%Q) by reflexivity.
  assert (H20 : (0 < 20)%Q) by reflexivity.
  unfold emitted, checkbox_call, textfield_call.
  destruct (is_checkbox f); [|destruct (rejects _)]; simpl;
    repeat split; eauto using Qlt_le_trans.
Qed.

(** C6, at a text input 40px wide and 16px high: the widget is 30pt by
    12pt, below the 40pt and 14pt the statement promises. *)
Lemma text_widget_30_by_12 :
  add_field page_841_89 healthy_backend border_painter any_rect
            (Canvas "overlay.pdf" page_841_89) (field_40_16 (num := Q))
  = Ok {| filename := "overlay.pdf"; pagesize := page_841_89;
          acroform := [textfield_call page_841_89 UnderlinedForced field_40_16];
          code :=
            border_painter
              (textfield_call page_841_89 UnderlinedForced field_40_16);
          pages_done := [] |} /\
  (w_width (textfield_call (num := Q) page_841_89 UnderlinedForced field_40_16)
   == 30)%Q /\
  (w_height (textfield_call (num := Q) page_841_89 UnderlinedForced field_40_16)
   == 12)%Q /\
  ~ (40 <= w_width (textfield_call (num := Q) page_841_89 UnderlinedForced
                                   field_40_16))%Q /\
  ~ (14 <= w_height (textfield_call (num := Q) page_841_89 UnderlinedForced
                                    field_40_16))%Q.
Proof.
  repeat split; try reflexivity; vm_compute; intros Hle; apply Hle; reflexivity.
Qed.

(** C6, amended. For every field descriptor, whatever the size of its
    source box, an emitted text widget is at least 20pt wide and 10pt high
    (40pt and 14pt are the values a dimension below 20pt or 10pt is
    replaced by), an emitted checkbox has a side of at least 10pt, and no
    emitted widget has a zero or negative dimension.  On IEEE doubles this
    holds for every box whose width and height are numbers (not NaN). *)
Theorem widget_at_least_20_by_10 :
  (forall (A4 : Q * Q) (rejects : widget Q -> bool)
          (paints : widget Q -> list (drawing Q))
          (rect_rejects : drawing Q -> bool) (c c' : canvas Q) (f : field Q),
      add_field A4 rejects paints rect_rejects c f = Ok c' ->
      exists w, acroform c' = acroform c ++ [w] /\
        match w with
        | Checkbox _ _ _ size _ => (10 <= size)%Q
        | TextField _ _ _ _ width height _ =>
            (20 <= width)%Q /\ (10 <= height)%Q
        end /\
        (0 < w_width w)%Q /\ (0 < w_height w)%Q) /\
  (forall (A4 : spec_float * spec_float)
          (rejects : widget spec_float -> bool)
          (paints : widget spec_float -> list (drawing spec_float))
          (rect_rejects : drawing spec_float -> bool)
          (c c' : canvas spec_float) (f : field spec_float),
      add_field A4 rejects paints rect_rejects c f = Ok c' ->
      f_width f <> S754_nan -> f_height f <> S754_nan ->
      exists w, acroform c' = acroform c ++ [w] /\
        match w with
        | Checkbox _ _ _ size _ => SFleb (num_of_Z 10) size = true
        | TextField _ _ _ _ width height _ =>
            SFleb (num_of_Z 20) width = true /\
            SFleb (num_of_Z 10) height = true
        end /\
        SFltb (num_of_Z 0) (w_width w) = true /\
        SFltb (num_of_Z 0) (w_height w) = true).
Proof.
  split.
  - intros A4 rejects paints rect_rejects c c' f Hc.
    apply add_field_Ok in Hc as (_ & Ha & _).
    exists (emitted A4 rejects f). split; [exact Ha|]. apply emitted_size.
  - intros A4 rejects paints rect_rejects c c' f Hc Hw Hh.
    apply add_field_Ok in Hc as (_ & Ha & _).
    exists (emitted A4 rejects f). split; [exact Ha|].
    apply emitted_size_binary64; assumption.
Qed.

Lemma widget_at_least_20_by_10_witness :
  exists w : widget Q,
    [emitted page_841_89 degraded_backend field_zero] = [] ++ [w] /\
    match w with
    | Checkbox _ _ _ size _ => (10 <= size)%Q
    | TextField _ _ _ _ width height _ => (20 <= width)%Q /\ (10 <= height)%Q
    end /\
    (0 < w_width w)%Q /\ (0 < w_height w)%Q.
Proof.
  exact (proj1 widget_at_least_20_by_10 page_841_89 degraded_backend
           border_painter any_rect
           (Canvas "overlay.pdf" page_841_89) _ field_zero eq_refl).
Defined.



(** ** Widgets below the page: lines 67 to 97 *)

Lemma y_pt_negative (A4 : Q * Q) (f : field Q) :
  (snd A4 < f_y f * (3 # 4) + h_pt f)%Q -> (y_pt A4 f < 0)%Q.
Proof. intros Hlow. rewrite y_pt_Q. lra. Qed.

(** On IEEE doubles line 72 rounds twice.  A text area one page high
    whose top is 2^-42 px down the page ends half a unit in the last place
    of the page height below the page; the first subtraction rounds to the
    height of the box and the second gives [0.0]. *)
Remark y_pt_rounding_tie_binary64 :
  (SF2Q (snd reportlab_A4)
   < SF2Q (num_mul (f_y field_page_high) CSS_PX_TO_PT)
     + SF2Q (h_pt field_page_high))%Q /\
  SFltb (snd reportlab_A4)
        (SFadd Binary64.prec Binary64.emax
               (num_mul (f_y field_page_high) CSS_PX_TO_PT)
               (h_pt field_page_high)) = true /\
  y_pt reportlab_A4 field_page_high = S754_zero false /\
  SFltb (y_pt reportlab_A4 field_page_high) (num_of_Z 0) = false.
Proof. repeat split; vm_compute; reflexivity. Qed.

(** C10. Nothing in lines 67 to 97 compares a position with the page: for
    a box that ends below one page height, [y * 0.75 + h_pt >
    page_height_pt], line 72 gives a negative [y_pt] in exact arithmetic,
    and an iteration that adds a widget adds it at that [y_pt].  But the
    call never gets as far: with ReportLab's canvas it ends at line 63 with
    [AttributeError].  For the text area 1200px down the document, on IEEE
    doubles with ReportLab's [A4], the top edge is past the page height,
    the computed [y_pt] is negative, and the call emits no widget and
    writes no overlay page, where the statement promises the widget at the
    off-page coordinate. *)
Theorem off_page_field_gets_no_widget :
  (forall (A4 : Q * Q) (f : field Q),
      (snd A4 < f_y f * (3 # 4) + h_pt f)%Q -> (y_pt A4 f < 0)%Q) /\
  (forall (num : Type) (arith : Arith num) (A4 : num * num)
          (rejects : widget num -> bool)
          (paints : widget num -> list (drawing num))
          (rect_rejects : drawing num -> bool)
          (c c' : canvas num) (f : field num),
      add_field A4 rejects paints rect_rejects c f = Ok c' ->
      exists w, acroform c' = acroform c ++ [w] /\ w_y w = y_pt A4 f) /\
  (SFltb (snd reportlab_A4)
         (num_mul (f_y (field_y1200 (num := spec_float))) CSS_PX_TO_PT)
   = true /\
   SFltb (snd reportlab_A4)
         (SFadd Binary64.prec Binary64.emax
                (num_mul (f_y (field_y1200 (num := spec_float))) CSS_PX_TO_PT)
                (h_pt field_y1200))
   = true /\
   SFltb (y_pt (num := spec_float) reportlab_A4 field_y1200) (num_of_Z 0)
   = true) /\
  (forall (rejects : widget spec_float -> bool)
          (paints : widget spec_float -> list (drawing spec_float))
          (rect_rejects : drawing spec_float -> bool),
      make_overlay_pdf reportlab_A4 reportlab_Canvas_attrs rejects paints
                       rect_rejects "overlay.pdf" [field_y1200] ∅
      = Raised AttributeError).
Proof.
  split; [exact y_pt_negative|]. split; [|split].
  - intros num arith A4 rejects paints rect_rejects c c' f Hc.
    apply add_field_Ok in Hc as (_ & Ha & _).
    exists (emitted A4 rejects f). split; [exact Ha|].
    unfold emitted, checkbox_call, textfield_call.
    destruct (is_checkbox f); [|destruct (rejects _)]; reflexivity.
  - repeat split; vm_compute; reflexivity.
  - intros rejects paints rect_rejects.
    apply make_overlay_pdf_AttributeError.
    exact (bool_decide_eq_false_1
             ("acroform" ∈ reportlab_Canvas_attrs) eq_refl).
Qed.

Lemma off_page_field_gets_no_widget_witness :
  ((snd (page_841_89 (num := Q))
    < f_y field_y1200 * (3 # 4) + h_pt field_y1200)%Q /\
   (y_pt (num := Q) page_841_89 field_y1200 < 0)%Q) /\
  exists w : widget Q,
    [emitted page_841_89 healthy_backend field_y1200] = [] ++ [w] /\
    w_y w = y_pt page_841_89 field_y1200.
Proof.
  assert (Hlow : (snd (page_841_89 (num := Q))
                  < f_y field_y1200 * (3 # 4) + h_pt field_y1200)%Q)
    by reflexivity.
  exact (conj
           (conj Hlow
              (proj1 off_page_field_gets_no_widget page_841_89 field_y1200
                 Hlow))
           (proj1 (proj2 off_page_field_gets_no_widget) Q Q_arith page_841_89
              healthy_backend border_painter any_rect
              (Canvas "overlay.pdf" page_841_89) _ field_y1200 eq_refl)).
Defined.

(** ** [merge_pdfs]: lines 103 to 111 *)

Lemma py_index_Ok {A : Type} (l : list A) (k : Z) :
  (0 <= k < Z.of_nat (length l))%Z ->
  exists a, l !! Z.to_nat k = Some a /\ py_index l k = Ok a.
Proof.
  intros Hk. unfold py_index.
  destruct (k <? 0)%Z eqn:E; [apply Z.ltb_lt in E; lia|]. rewrite E.
  destruct (l !! Z.to_nat k) as [a|] eqn:Hl; [eauto|].
  apply lookup_ge_None in Hl. lia.
Qed.

Lemma py_index_empty {A : Type} (k : Z) :
  py_index (@nil A) k = Raised IndexError.
Proof.
  unfold py_index. simpl.
  destruct (k <? 0)%Z eqn:E.
  - rewrite Z.add_0_r, E. reflexivity.
  - rewrite E. reflexivity.
Qed.

Section MergeFacts.
Context {num : Type}.
Variable render : page num -> page num -> page num.

(** Without overlay pages the first iteration already raises. *)
Lemma merge_pages_empty_overlay (i : nat) (b : page num)
    (rest : list (page num)) :
  merge_pages render [] i (b :: rest) = Raised IndexError.
Proof. simpl. rewrite py_index_empty. reflexivity. Qed.

Lemma merge_pages_Ok (overlay : document num) (pages : list (page num)) :
  (1 <= length overlay)%nat ->
  forall i, exists out,
    merge_pages render overlay i pages = Ok out /\
    length out = length pages /\
    forall j b, pages !! j = Some b ->
      exists o, overlay !! Nat.min (i + j) (length overlay - 1) = Some o /\
                out !! j = Some (render b o).
Proof.
  intros Hn. induction pages as [|page rest IH]; intros i; simpl.
  - exists []. repeat split. intros j b Hj. discriminate.
  - destruct (py_index_Ok overlay
                (Z.min (Z.of_nat i) (Z.of_nat (length overlay) - 1)))
      as (o & Ho & ->); [lia|].
    destruct (IH (S i)) as (out & -> & Hlen & Hout). simpl.
    exists (render page o :: out). split; [reflexivity|].
    split; [simpl; congruence|].
    intros [|j] b Hj; simpl in Hj.
    + injection Hj as <-. exists o. split; [|reflexivity].
      rewrite <- Ho. f_equal. lia.
    + destruct (Hout j b Hj) as (o' & Ho' & Hj').
      exists o'. split; [|exact Hj'].
      rewrite <- Ho'. f_equal. lia.
Qed.

End MergeFacts.

(** C5. What the merge writes carries no widget of the overlay.  pdfrw's
    [PageMerge] draws the content of the overlay page on the base page and
    leaves the annotations of the base page as they are; with such a
    compositing, and an overlay of at least one page, the merge writes as
    many pages as the base has, and page [i] has the annotations of base
    page [i] and no others.  For a base of three printed pages and an
    overlay of one page with one text field, the three pages written carry
    no widget, where the statement promises the overlay page's widgets on
    each.  For an overlay file without pages, which has fewer pages than
    any base with a page, [min(0, 0 - 1)] is [-1] and indexing the empty
    page list raises [IndexError], where the statement promises that the
    merge never raises. *)
Theorem merged_pages_carry_no_overlay_widget :
  (forall (num : Type) (render : page num -> page num -> page num)
          (base_pdf_path overlay_pdf_path final_out_path : string)
          (fs : filesystem num) (base overlay : document num),
      fs !! base_pdf_path = Some base ->
      fs !! overlay_pdf_path = Some overlay ->
      (1 <= length overlay)%nat ->
      (forall b o, annots (render b o) = annots b) ->
      exists out,
        merge_pdfs render base_pdf_path overlay_pdf_path final_out_path fs
        = Ok (<[final_out_path := out]> fs) /\
        length out = length base /\
        forall i b, base !! i = Some b ->
          exists pg, out !! i = Some pg /\ annots pg = annots b) /\
  (exists out : document Q,
      merge_pdfs stamp "base_render.pdf" "overlay.pdf" "final_fill.pdf"
        (<["base_render.pdf" := [base_page 1; base_page 2; base_page 3]]>
           (<["overlay.pdf" := [overlay_page_of [field_w20]]]> ∅))
      = Ok (<["final_fill.pdf" := out]>
              (<["base_render.pdf" := [base_page 1; base_page 2; base_page 3]]>
                 (<["overlay.pdf" := [overlay_page_of [field_w20]]]> ∅))) /\
      annots <$> out = [[]; []; []] /\
      annots (overlay_page_of [field_w20])
      = [textfield_call page_841_89 UnderlinedForced field_w20]) /\
  ((length ([] : document Q) < length [base_page (num := Q) 1])%nat /\
   merge_pdfs stamp "base_render.pdf" "overlay.pdf" "final_fill.pdf"
     (<["base_render.pdf" := [base_page (num := Q) 1]]>
        (<["overlay.pdf" := []]> ∅))
   = Raised IndexError).
Proof.
  split; [|split].
  - intros num render bp op fp fs base overlay Hb Ho Hn Hannots.
    destruct (merge_pages_Ok render overlay base Hn 0%nat)
      as (out & Hrun & Hlen & Hout).
    exists out. unfold merge_pdfs, PdfReader. rewrite Hb, Ho. simpl.
    rewrite Hrun. simpl. split; [reflexivity|]. split; [exact Hlen|].
    intros i b Hi. destruct (Hout i b Hi) as (o & _ & Hoi).
    exists (render b o). split; [exact Hoi|apply Hannots].
  - eexists. split; [reflexivity|]. split; reflexivity.
  - split; [simpl; lia|reflexivity].
Qed.

Lemma merged_pages_carry_no_overlay_widget_witness :
  exists out : document Q,
    merge_pdfs stamp "base_render.pdf" "overlay.pdf" "final_fill.pdf"
      (<["base_render.pdf" := [base_page 1; base_page 2; base_page 3]]>
         (<["overlay.pdf" := [overlay_page_of [field_w20]]]> ∅))
    = Ok (<["final_fill.pdf" := out]>
            (<["base_render.pdf" := [base_page 1; base_page 2; base_page 3]]>
               (<["overlay.pdf" := [overlay_page_of [field_w20]]]> ∅))) /\
    length out = 3%nat /\
    forall i b, [base_page 1; base_page 2; base_page 3] !! i = Some b ->
      exists pg, out !! i = Some pg /\ annots pg = annots b.
Proof.
  apply (proj1 merged_pages_carry_no_overlay_widget Q stamp
           "base_render.pdf" "overlay.pdf" "final_fill.pdf"
           (<["base_render.pdf" := [base_page 1; base_page 2; base_page 3]]>
              (<["overlay.pdf" := [overlay_page_of [field_w20]]]> ∅))
           [base_page 1; base_page 2; base_page 3]
           [overlay_page_of [field_w20]]).
  - reflexivity.
  - reflexivity.
  - simpl. lia.
  - intros b o. reflexivity.
Defined.




(** ** Names of the fields: lines 35 to 51 *)

Lemma js_or_else_Some (s fallback : string) :
  js_or_else (Some s) fallback
  = if String.eqb s EmptyString then fallback else s.
Proof.
  unfold js_or_else, js_or, truthy.
  destruct (String.eqb s EmptyString); reflexivity.
Qed.

Lemma eqb_empty_false (s : string) :
  s <> EmptyString -> String.eqb s EmptyString = false.
Proof. intros Hs. apply String.eqb_neq, Hs. Qed.

(** C8. The control found at 0-based position [idx] is named after its
    [name] when that is not empty, else after its [id] when that is not
    empty, else after its placeholder when it has a non-empty one, and
    otherwise ["{tag}_{idx}"] with the lower-case tag.  An [input] without
    name, id and placeholder found at position 4 is named ["input_4"], a
    [select] without name and id found at position 3 ["select_3"]. *)
Theorem name_resolution_order :
  (forall (num : Type) (nodes : list (element num)) (idx : nat)
          (el : element num),
      nodes !! idx = Some el ->
      exists f, extract_fields nodes !! idx = Some f /\
        f_tag f = toLowerCase (tagName el) /\
        (el_name el <> EmptyString -> f_name f = el_name el) /\
        (el_name el = EmptyString -> el_id el <> EmptyString ->
         f_name f = el_id el) /\
        (el_name el = EmptyString -> el_id el = EmptyString ->
         forall p, el_placeholder el = Some p -> p <> EmptyString ->
                   f_name f = p) /\
        (el_name el = EmptyString -> el_id el = EmptyString ->
         el_placeholder el = None \/ el_placeholder el = Some EmptyString ->
         f_name f = (f_tag f ++ "_" ++ string_of_index idx)%string)) /\
  f_name <$> extract_fields (five_controls (num := Q))
  = ["surname"; "mail"; "Notes"; "select_3"; "input_4"].
Proof.
  split; [|reflexivity].
  intros num nodes idx el Hel.
  exists (field_of_element el idx).
  split. { unfold extract_fields. rewrite list_lookup_imap, Hel. reflexivity. }
  split; [reflexivity|]. cbn [f_name f_tag field_of_element].
  unfold js_or at 2. cbn [truthy].
  split; [|split; [|split]].
  - intros Hn. rewrite (eqb_empty_false _ Hn). cbn [negb].
    unfold js_or. cbn [truthy]. rewrite (eqb_empty_false _ Hn). cbn [negb].
    rewrite js_or_else_Some, (eqb_empty_false _ Hn). reflexivity.
  - intros -> Hi. cbn.
    unfold js_or. cbn [truthy]. rewrite (eqb_empty_false _ Hi). cbn [negb].
    rewrite js_or_else_Some, (eqb_empty_false _ Hi). reflexivity.
  - intros -> -> p -> Hp. cbn.
    rewrite js_or_else_Some, (eqb_empty_false _ Hp). reflexivity.
  - intros -> -> [-> | ->]; reflexivity.
Qed.

Lemma name_resolution_order_witness :
  exists f : field Q,
    extract_fields five_controls !! 4%nat = Some f /\
    f_tag f = "input" /\ f_name f = "input_4".
Proof.
  destruct (proj1 name_resolution_order Q five_controls 4%nat
              (control "INPUT" "text" EmptyString EmptyString
                       (Some EmptyString)) eq_refl)
    as (f & Hf & Htag & _ & _ & _ & Hsyn).
  exists f. split; [exact Hf|]. split; [exact Htag|].
  rewrite (Hsyn eq_refl eq_refl (or_intror eq_refl)), Htag. reflexivity.
Defined.

(** * Further properties *)

(** ** The script of [render_html_to_pdf]: lines 35 to 51 *)

Lemma js_or_else_not_empty (a : option string) (b : string) :
  b <> EmptyString -> js_or_else a b <> EmptyString.
Proof.
  intros Hb. destruct a as [s|]; [|exact Hb].
  rewrite js_or_else_Some.
  destruct (String.eqb s EmptyString) eqn:E; [exact Hb|].
  apply String.eqb_neq, E.
Qed.

Lemma synthesized_not_empty (tag digits : string) :
  (tag ++ "_" ++ digits)%string <> EmptyString.
Proof. destruct tag; discriminate. Qed.

(** X1. Every field the script returns has a name that is not empty,
    whatever the element's name, id and placeholder are. *)
Theorem extracted_names_not_empty (num : Type) (nodes : list (element num)) :
  Forall (fun f => f_name f <> EmptyString) (extract_fields nodes).
Proof.
  apply Forall_lookup_2. intros i f Hf.
  unfold extract_fields in Hf. rewrite list_lookup_imap in Hf.
  destruct (nodes !! i) as [el|]; [|discriminate].
  injection Hf as <-. cbn [f_name field_of_element].
  apply js_or_else_not_empty, synthesized_not_empty.
Qed.

Lemma string_of_index_inj (i j : nat) :
  string_of_index i = string_of_index j -> i = j.
Proof.
  unfold string_of_index. intros Hij.
  assert (Hu : Some (Nat.to_uint i) = Some (Nat.to_uint j))
    by (rewrite <- !NilEmpty.usu; f_equal; exact Hij).
  injection Hu as Hu.
  rewrite <- (Unsigned.of_to i), <- (Unsigned.of_to j). f_equal. exact Hu.
Qed.

Lemma digits_without_underscore (d : Decimal.uint) :
  has_char "_" (NilEmpty.string_of_uint d) = false.
Proof. induction d; simpl; [reflexivity|assumption..]. Qed.

Lemma has_char_app (c : ascii) (a b : string) :
  has_char c (a ++ b) = has_char c a || has_char c b.
Proof.
  induction a as [|c' a IH]; simpl; [reflexivity|].
  rewrite IH, orb_assoc. reflexivity.
Qed.

(** A string ends in at most one way with an underscore and digits. *)
Lemma split_at_last_underscore (t1 t2 d1 d2 : string) :
  has_char "_" d1 = false -> has_char "_" d2 = false ->
  (t1 ++ String "_" d1 = t2 ++ String "_" d2)%string -> t1 = t2 /\ d1 = d2.
Proof.
  intros H1 H2. revert t2.
  induction t1 as [|c t1 IH]; intros [|c' t2]; cbn; intros Heq.
  - injection Heq as ->. auto.
  - injection Heq as Hc Hd. subst d1.
    rewrite has_char_app in H1. simpl in H1.
    rewrite orb_true_r in H1. discriminate.
  - injection Heq as Hc Hd. subst d2.
    rewrite has_char_app in H2. simpl in H2.
    rewrite orb_true_r in H2. discriminate.
  - injection Heq as <- Heq. destruct (IH _ Heq) as [-> ->]. auto.
Qed.

Lemma unnamed_gets_synthesized {num : Type} (el : element num) (idx : nat) :
  unnamed el ->
  f_name (field_of_element el idx)
  = (toLowerCase (tagName el) ++ "_" ++ string_of_index idx)%string.
Proof.
  intros (Hn & Hi & Hp). cbn [f_name field_of_element].
  rewrite Hn, Hi. destruct Hp as [-> | ->]; reflexivity.
Qed.

(** X2. Two different controls without name, id and placeholder never get
    the same synthesized name: the name tells the position apart, whatever
    the tags are. *)
Theorem synthesized_names_differ (num : Type) (nodes : list (element num))
    (i j : nat) (el_i el_j : element num) (f_i f_j : field num) :
  nodes !! i = Some el_i -> nodes !! j = Some el_j ->
  unnamed el_i -> unnamed el_j ->
  extract_fields nodes !! i = Some f_i ->
  extract_fields nodes !! j = Some f_j ->
  i <> j ->
  f_name f_i <> f_name f_j.
Proof.
  intros Hi Hj Ui Uj Hfi Hfj Hne Heq. apply Hne.
  unfold extract_fields in Hfi, Hfj.
  rewrite list_lookup_imap, Hi in Hfi. rewrite list_lookup_imap, Hj in Hfj.
  injection Hfi as <-. injection Hfj as <-.
  rewrite (unnamed_gets_synthesized el_i i Ui) in Heq.
  rewrite (unnamed_gets_synthesized el_j j Uj) in Heq.
  apply (split_at_last_underscore _ _ (string_of_index i) (string_of_index j))
    in Heq as [_ Heq];
    [exact (string_of_index_inj i j Heq)| |];
    apply digits_without_underscore.
Qed.

Lemma synthesized_names_differ_witness :
  f_name (field_of_element
            (control (num := Q) "SELECT" "select-one" EmptyString EmptyString
                     None) 3)
  <> f_name (field_of_element
               (control (num := Q) "INPUT" "text" EmptyString EmptyString
                        (Some EmptyString)) 4).
Proof.
  apply (synthesized_names_differ Q five_controls 3 4 _ _ _ _
           eq_refl eq_refl).
  - repeat split; auto.
  - repeat split; auto.
  - reflexivity.
  - reflexivity.
  - discriminate.
Defined.

(** ** From the script to the overlay: lines 35 to 97 *)




(** X4. Script and loop together: when the loop of lines 65 to 97 runs
    over the fields of N controls and does not raise, it has added N
    widgets to the form, and the i-th sits where the box of the i-th
    control puts it, [x * 0.75] from the left and
    [page height - y * 0.75 - height * 0.75] from the bottom, under the
    name the script resolved. *)
Theorem control_to_widget
    (num : Type) (arith : Arith num) (A4 : num * num)
    (rejects : widget num -> bool)
    (paints : widget num -> list (drawing num))
    (rect_rejects : drawing num -> bool)
    (nodes : list (element num)) (c c' : canvas num)
    (i : nat) (el : element num) :
  add_fields A4 rejects paints rect_rejects c (extract_fields nodes) = Ok c' ->
  nodes !! i = Some el ->
  exists ws w,
    acroform c' = acroform c ++ ws /\
    length ws = length nodes /\
    ws !! i = Some w /\
    w_name w = f_name (field_of_element el i) /\
    w_x w = (r_x (getBoundingClientRect el) * CSS_PX_TO_PT)%num /\
    w_y w = (snd A4 - r_y (getBoundingClientRect el) * CSS_PX_TO_PT
             - r_height (getBoundingClientRect el) * CSS_PX_TO_PT)%num.
Proof.
  intros Hrun Hi. rewrite add_fields_cases in Hrun.
  destruct (List.find _ _); [discriminate|]. injection Hrun as <-.
  exists (map (emitted A4 rejects) (extract_fields nodes)).
  exists (emitted A4 rejects (field_of_element el i)).
  split; [reflexivity|].
  split; [unfold extract_fields; rewrite length_map, length_imap; reflexivity|].
  split.
  { unfold extract_fields. rewrite list_lookup_fmap, list_lookup_imap, Hi.
    reflexivity. }
  unfold emitted, checkbox_call, textfield_call.
  destruct (is_checkbox _); [|destruct (rejects _)]; repeat split; reflexivity.
Qed.

Lemma control_to_widget_witness :
  exists (ws : list (widget Q)) (w : widget Q),
    map (emitted page_841_89 healthy_backend) (extract_fields five_controls)
    = [] ++ ws /\
    length ws = 5%nat /\
    ws !! 4%nat = Some w /\
    w_name w = "input_4" /\
    w_x w = (8 * CSS_PX_TO_PT)%Q /\
    w_y w = (snd page_841_89 - 8 * CSS_PX_TO_PT - 18 * CSS_PX_TO_PT)%Q.
Proof.
  exact (control_to_widget Q Q_arith page_841_89 healthy_backend
           border_painter any_rect five_controls
           (Canvas "overlay.pdf" page_841_89) _ 4
           (control "INPUT" "text" EmptyString EmptyString (Some EmptyString))
           eq_refl eq_refl).
Defined.

(** ** The loop of [make_overlay_pdf] as a whole: lines 65 to 97 *)

(** X5. The loop keeps the one-to-one correspondence.  With a ReportLab
    that builds plain text fields and checkboxes and draws rectangles, the
    loop over N field descriptors does not raise and adds exactly N
    widgets to the form, the i-th with the name and the position of the
    i-th descriptor.  A text field whose styled widget is rejected is
    there as the plain fallback widget.  Nothing is filtered: boxes of
    size zero and repeated names get their widget too.  The loop ends no
    page. *)
Theorem loop_emits_one_widget_per_field
    (num : Type) (arith : Arith num) (A4 : num * num)
    (rejects : widget num -> bool)
    (paints : widget num -> list (drawing num))
    (rect_rejects : drawing num -> bool)
    (fields : list (field num)) (c : canvas num) :
  (forall w, is_styled w = false -> rejects w = false) ->
  (forall r, rect_rejects r = false) ->
  exists c' ws,
    add_fields A4 rejects paints rect_rejects c fields = Ok c' /\
    acroform c' = acroform c ++ ws /\
    pages_done c' = pages_done c /\
    length ws = length fields /\
    forall i f, fields !! i = Some f ->
      exists w, ws !! i = Some w /\
        w_name w = f_name f /\ w_x w = x_pt f /\ w_y w = y_pt A4 f /\
        (is_checkbox f = false ->
         rejects (textfield_call A4 UnderlinedForced f) = true ->
         w = textfield_call A4 Plain f).
Proof.
  intros Hplain Hrect. rewrite add_fields_cases.
  assert (Hnone : List.find (doomed A4 rejects rect_rejects) fields = None).
  { apply find_doomed_None, Forall_forall. intros f _.
    apply unstyled_accepted_not_doomed; assumption. }
  rewrite Hnone. eexists. exists (map (emitted A4 rejects) fields).
  split; [reflexivity|]. simpl.
  split; [reflexivity|]. split; [reflexivity|].
  split; [apply length_map|].
  intros i f Hi. exists (emitted A4 rejects f).
  split; [rewrite list_lookup_fmap, Hi; reflexivity|].
  unfold emitted, checkbox_call, textfield_call.
  destruct (is_checkbox f); [|destruct (rejects _)];
    repeat split; intros; congruence.
Qed.

Lemma loop_emits_one_widget_per_field_witness :
  exists (c' : canvas Q) (ws : list (widget Q)),
    add_fields page_841_89 degraded_backend border_painter any_rect
               (Canvas "overlay.pdf" page_841_89)
               [field_zero; field_checkbox_13; field_w20]
    = Ok c' /\
    acroform c' = [] ++ ws /\
    pages_done c' = [] /\
    length ws = 3%nat /\
    forall i f, [field_zero; field_checkbox_13; field_w20] !! i = Some f ->
      exists w, ws !! i = Some w /\
        w_name w = f_name f /\ w_x w = x_pt f /\
        w_y w = y_pt page_841_89 f /\
        (is_checkbox f = false ->
         degraded_backend (textfield_call page_841_89 UnderlinedForced f)
         = true ->
         w = textfield_call page_841_89 Plain f).
Proof.
  apply (loop_emits_one_widget_per_field Q Q_arith page_841_89
           degraded_backend border_painter any_rect
           [field_zero; field_checkbox_13; field_w20]
           (Canvas "overlay.pdf" page_841_89)).
  - intros w Hw. exact Hw.
  - intros r. reflexivity.
Defined.

Lemma find_first {A : Type} (p : A -> bool) (l : list A) (a : A) :
  List.find p l = Some a ->
  exists before after,
    l = before ++ a :: after /\
    Forall (fun x => p x = false) before /\ p a = true.
Proof.
  induction l as [|x l IH]; simpl; [discriminate|].
  destruct (p x) eqn:E.
  - intros [= <-]. exists [], l. auto.
  - intros Hf. destruct (IH Hf) as (before & after & -> & Hb & Ha).
    exists (x :: before), after.
    split; [reflexivity|]. split; [constructor; assumption|exact Ha].
Qed.

(** X6. The loop is all or nothing.  It raises exactly when the iteration
    of some field raises: a checkbox ReportLab rejects (the checkbox branch
    has no fallback), or a text field it rejects with the style whose
    fallback fails, because the rectangle cannot be drawn or because the
    plain field is rejected as well.  The exception is that of the first
    such field.  Otherwise the form holds one widget per field and the
    page the rectangles of the fallbacks and what ReportLab painted, in
    the order of the fields.  In particular the loop over no field never
    raises. *)
Theorem loop_raises_iff_some_field_doomed
    (num : Type) (arith : Arith num) (A4 : num * num)
    (rejects : widget num -> bool)
    (paints : widget num -> list (drawing num))
    (rect_rejects : drawing num -> bool)
    (fields : list (field num)) (c : canvas num) :
  ((exists e, add_fields A4 rejects paints rect_rejects c fields = Raised e)
   <-> Exists (fun f => doomed A4 rejects rect_rejects f = true) fields) /\
  (forall e, add_fields A4 rejects paints rect_rejects c fields = Raised e ->
     exists before f after,
       fields = before ++ f :: after /\
       Forall (fun f => doomed A4 rejects rect_rejects f = false) before /\
       doomed A4 rejects rect_rejects f = true /\
       e = raised_by A4 rect_rejects f) /\
  (forall c', add_fields A4 rejects paints rect_rejects c fields = Ok c' ->
     acroform c' = acroform c ++ map (emitted A4 rejects) fields /\
     code c' = code c ++ concat (map (drawn A4 rejects paints) fields)) /\
  add_fields A4 rejects paints rect_rejects c [] = Ok c.
Proof.
  rewrite add_fields_cases.
  split; [|split; [|split; [|reflexivity]]].
  - destruct (List.find _ fields) as [f|] eqn:E.
    + split; [intros _|eauto].
      apply find_some in E as [Hf Hd].
      apply Exists_exists. exists f. split; [|exact Hd].
      apply list_elem_of_In, Hf.
    + split; [intros [e He]; discriminate|]. intros Hex.
      apply find_doomed_None in E.
      apply Exists_exists in Hex as (f & Hf & Hd).
      rewrite Forall_forall in E. specialize (E f Hf). congruence.
  - intros e. destruct (List.find _ fields) as [f|] eqn:E; [|discriminate].
    intros [= <-]. apply find_first in E as (before & after & ? & ? & ?).
    exists before, f, after. auto.
  - intros c'. destruct (List.find _ fields); [discriminate|].
    intros [= <-]. simpl. auto.
Qed.

Lemma loop_raises_iff_some_field_doomed_witness :
  (exists e,
      add_fields page_841_89 no_checkbox_backend border_painter any_rect
                 (Canvas "overlay.pdf" page_841_89)
                 [field_w20; field_checkbox_13]
      = Raised e) /\
  (exists e,
      add_fields page_841_89 degraded_backend border_painter no_rect
                 (Canvas "overlay.pdf" page_841_89)
                 [field_checkbox_13; field_w20 (num := Q)]
      = Raised e).
Proof.
  split.
  - apply (proj2 (proj1 (loop_raises_iff_some_field_doomed Q Q_arith
                           page_841_89 no_checkbox_backend border_painter
                           any_rect [field_w20; field_checkbox_13]
                           (Canvas "overlay.pdf" page_841_89)))).
    apply Exists_cons_tl, Exists_cons_hd. reflexivity.
  - apply (proj2 (proj1 (loop_raises_iff_some_field_doomed Q Q_arith
                           page_841_89 degraded_backend border_painter
                           no_rect [field_checkbox_13; field_w20]
                           (Canvas "overlay.pdf" page_841_89)))).
    apply Exists_cons_tl, Exists_cons_hd. reflexivity.
Defined.

(** ** Where the widget lies against the box: lines 67 to 97 *)

Lemma emitted_position (A4 : Q * Q) (rejects : widget Q -> bool)
    (f : field Q) :
  w_x (emitted A4 rejects f) = x_pt f /\
  w_y (emitted A4 rejects f) = y_pt A4 f.
Proof.
  unfold emitted, checkbox_call, textfield_call.
  destruct (is_checkbox f); [|destruct (rejects _)]; split; reflexivity.
Qed.

Lemma emitted_text_size (A4 : Q * Q) (rejects : widget Q -> bool)
    (f : field Q) :
  is_checkbox f = false ->
  w_width (emitted A4 rejects f) = w_pt_min f /\
  w_height (emitted A4 rejects f) = h_pt_min f.
Proof.
  intros Hcb. unfold emitted, textfield_call. rewrite Hcb.
  destruct (rejects _); split; reflexivity.
Qed.

(** X7. The widget is anchored at the bottom-left corner of the control's
    box: its left edge is the box's, its bottom edge the box's bottom edge
    seen from the bottom of the page.  A text field of at least 20pt by 10pt
    covers the box exactly.  A narrower one reaches 40pt from the left
    edge, and a lower one ends [14 - h_pt] above the top edge of the box:
    the size policy grows the widget to the right and upwards and does not
    move it. *)
Theorem widget_anchored_at_bottom_left
    (A4 : Q * Q) (rejects : widget Q -> bool)
    (paints : widget Q -> list (drawing Q))
    (rect_rejects : drawing Q -> bool) (c c' : canvas Q) (f : field Q) :
  add_field A4 rejects paints rect_rejects c f = Ok c' ->
  exists w, acroform c' = acroform c ++ [w] /\
    (w_x w == f_x f * (3 # 4))%Q /\
    (w_y w == snd A4 - (f_y f + f_height f) * (3 # 4))%Q /\
    (is_checkbox f = false ->
     ((20 <= w_pt f)%Q ->
      (w_x w + w_width w == (f_x f + f_width f) * (3 # 4))%Q) /\
     ((w_pt f < 20)%Q -> (w_x w + w_width w == f_x f * (3 # 4) + 40)%Q) /\
     ((10 <= h_pt f)%Q ->
      (w_y w + w_height w == snd A4 - f_y f * (3 # 4))%Q) /\
     ((h_pt f < 10)%Q ->
      (w_y w + w_height w == snd A4 - f_y f * (3 # 4) + (14 - h_pt f))%Q)).
Proof.
  intros Hc. apply add_field_Ok in Hc as (_ & Ha & _).
  exists (emitted A4 rejects f). split; [exact Ha|].
  destruct (emitted_position A4 rejects f) as [-> ->].
  pose proof (x_pt_Q f) as Hx. pose proof (y_pt_Q A4 f) as Hy.
  pose proof (h_pt_Q f) as Hh. pose proof (w_pt_Q f) as Hw.
  split; [exact Hx|]. split; [lra|].
  intros Hcb. destruct (emitted_text_size A4 rejects f Hcb) as [-> ->].
  repeat split.
  - intros Hge. rewrite (w_pt_min_large f (Qle_not_lt _ _ Hge)). lra.
  - intros Hlt. rewrite (w_pt_min_small f Hlt). lra.
  - intros Hge. rewrite (h_pt_min_large f (Qle_not_lt _ _ Hge)). lra.
  - intros Hlt. rewrite (h_pt_min_small f Hlt). lra.
Qed.

Lemma widget_anchored_at_bottom_left_witness :
  exists w : widget Q,
    [emitted page_841_89 healthy_backend field_zero] = [] ++ [w] /\
    (w_x w == 0 * (3 # 4))%Q /\
    (w_y w == snd page_841_89 - (0 + 0) * (3 # 4))%Q /\
    (w_x w + w_width w == 0 * (3 # 4) + 40)%Q /\
    (w_y w + w_height w
     == snd page_841_89 - 0 * (3 # 4) + (14 - h_pt field_zero))%Q.
Proof.
  destruct (widget_anchored_at_bottom_left page_841_89 healthy_backend
              border_painter any_rect
              (Canvas "overlay.pdf" page_841_89) _ field_zero eq_refl)
    as (w & Hw & Hx & Hy & Hedges).
  destruct (Hedges eq_refl) as (_ & Hright & _ & Htop).
  exists w. split; [exact Hw|]. split; [exact Hx|]. split; [exact Hy|].
  split; [apply Hright; reflexivity|apply Htop; reflexivity].
Defined.

(** X8. The conversion keeps the order from left to right and turns the
    order from top to bottom around: a box that starts further right gets
    a larger [x_pt], a box that ends further down the page gets a smaller
    [y_pt]. *)
Theorem flip_turns_vertical_order_around (A4 : Q * Q) (f1 f2 : field Q) :
  ((f_x f1 <= f_x f2)%Q -> (x_pt f1 <= x_pt f2)%Q) /\
  ((f_y f1 + f_height f1 <= f_y f2 + f_height f2)%Q ->
   (y_pt A4 f2 <= y_pt A4 f1)%Q).
Proof.
  rewrite !x_pt_Q, !y_pt_Q, !h_pt_Q. split; intros Hle; lra.
Qed.

Lemma flip_turns_vertical_order_around_witness :
  (x_pt (num := Q) field_w20 <= x_pt (num := Q) field_y1200)%Q /\
  (y_pt (num := Q) page_841_89 field_y1200
   <= y_pt (num := Q) page_841_89 field_w20)%Q.
Proof.
  pose proof (flip_turns_vertical_order_around page_841_89
                field_w20 field_y1200) as [Hx Hy].
  split; [apply Hx|apply Hy]; vm_compute; discriminate.
Defined.

(** X9. The size policy never makes a dimension smaller, and it is not
    monotone: a field whose converted width is below 20 ends up wider than
    any field whose converted width lies between 20 and 40, and a field
    whose converted height is below 10 ends up higher than any field whose
    converted height lies between 10 and 14. *)
Theorem size_policy_grows_and_jumps (f1 f2 : field Q) :
  (w_pt f1 <= w_pt_min f1)%Q /\ (h_pt f1 <= h_pt_min f1)%Q /\
  ((w_pt f1 < 20)%Q -> (20 <= w_pt f2)%Q -> (w_pt f2 < 40)%Q ->
   (w_pt_min f2 < w_pt_min f1)%Q) /\
  ((h_pt f1 < 10)%Q -> (10 <= h_pt f2)%Q -> (h_pt f2 < 14)%Q ->
   (h_pt_min f2 < h_pt_min f1)%Q).
Proof.
  repeat split.
  - destruct (Qlt_le_dec (w_pt f1) 20) as [Hlt|Hge].
    + rewrite (w_pt_min_small f1 Hlt). lra.
    + rewrite (w_pt_min_large f1 (Qle_not_lt _ _ Hge)). lra.
  - destruct (Qlt_le_dec (h_pt f1) 10) as [Hlt|Hge].
    + rewrite (h_pt_min_small f1 Hlt). lra.
    + rewrite (h_pt_min_large f1 (Qle_not_lt _ _ Hge)). lra.
  - intros H1 H2 H3.
    rewrite (w_pt_min_small f1 H1), (w_pt_min_large f2 (Qle_not_lt _ _ H2)).
    exact H3.
  - intros H1 H2 H3.
    rewrite (h_pt_min_small f1 H1), (h_pt_min_large f2 (Qle_not_lt _ _ H2)).
    exact H3.
Qed.

Lemma size_policy_grows_and_jumps_witness :
  (w_pt_min (num := Q) field_40_16 < w_pt_min (num := Q) field_w20)%Q /\
  (h_pt_min (num := Q) field_40_16 < h_pt_min (num := Q) field_checkbox_13)%Q.
Proof.
  split.
  - apply (proj1 (proj2 (proj2
        (size_policy_grows_and_jumps field_w20 field_40_16))));
      vm_compute; first [reflexivity|discriminate].
  - apply (proj2 (proj2 (proj2
        (size_policy_grows_and_jumps field_checkbox_13 field_40_16))));
      vm_compute; first [reflexivity|discriminate].
Defined.

(** ** [merge_pdfs] on every input: lines 103 to 111 *)

Section MergeRun.
Context {num : Type}.
Variable render : page num -> page num -> page num.

Lemma merge_pages_single_overlay (o : page num) (pages : list (page num))
    (i : nat) :
  merge_pages render [o] i pages = Ok (map (fun b => render b o) pages).
Proof.
  revert i. induction pages as [|b rest IH]; intros i; simpl; [reflexivity|].
  rewrite IH.
  replace (Z.min (Z.of_nat i) (Z.of_nat 1 - 1)) with 0%Z by lia. reflexivity.
Qed.

Lemma merge_pdfs_single_overlay
    (base_pdf_path overlay_pdf_path final_out_path : string)
    (fs : filesystem num) (base : document num) (o : page num) :
  fs !! base_pdf_path = Some base ->
  fs !! overlay_pdf_path = Some [o] ->
  merge_pdfs render base_pdf_path overlay_pdf_path final_out_path fs
  = Ok (<[final_out_path := map (fun b => render b o) base]> fs).
Proof.
  intros Hb Ho. unfold merge_pdfs, PdfReader. rewrite Hb, Ho. simpl.
  rewrite merge_pages_single_overlay. reflexivity.
Qed.
End MergeRun.

(** X10. What a call of [merge_pdfs] does, when each of the two paths
    holds a PDF document or no file at all.  It raises pdfrw's
    [PdfParseError] when the base or the overlay file is missing, and
    [IndexError] when the base has a page and the overlay has none.  A base
    without pages gives an output without pages, whatever the overlay
    holds.  In every other case it writes an output with as many pages as
    the base. *)
Theorem merge_outcomes
    (num : Type) (render : page num -> page num -> page num)
    (base_pdf_path overlay_pdf_path final_out_path : string)
    (fs : filesystem num) :
  match fs !! base_pdf_path, fs !! overlay_pdf_path with
  | None, _ | Some _, None =>
      merge_pdfs render base_pdf_path overlay_pdf_path final_out_path fs
      = Raised PdfParseError
  | Some [], Some _ =>
      merge_pdfs render base_pdf_path overlay_pdf_path final_out_path fs
      = Ok (<[final_out_path := []]> fs)
  | Some (_ :: _), Some [] =>
      merge_pdfs render base_pdf_path overlay_pdf_path final_out_path fs
      = Raised IndexError
  | Some (b :: base), Some (_ :: _) =>
      exists out,
        merge_pdfs render base_pdf_path overlay_pdf_path final_out_path fs
        = Ok (<[final_out_path := out]> fs) /\
        length out = S (length base)
  end.
Proof.
  unfold merge_pdfs, PdfReader.
  destruct (fs !! base_pdf_path) as [[|b base]|];
    destruct (fs !! overlay_pdf_path) as [[|o overlay]|]; try reflexivity.
  destruct (merge_pages_Ok render (o :: overlay) (b :: base)
              ltac:(simpl; lia) 0%nat) as (out & Hrun & Hlen & _).
  exists out. cbn [mbind result_bind]. rewrite Hrun. auto.
Qed.

(** X11. When the overlay has at least as many pages as the base, page [i]
    of the output is page [i] of the base stamped with page [i] of the
    overlay; the pages the overlay has beyond the base are not used. *)
Theorem merge_page_for_page
    (num : Type) (render : page num -> page num -> page num)
    (base_pdf_path overlay_pdf_path final_out_path : string)
    (fs : filesystem num) (base overlay : document num) :
  fs !! base_pdf_path = Some base ->
  fs !! overlay_pdf_path = Some overlay ->
  (length base <= length overlay)%nat ->
  exists out,
    merge_pdfs render base_pdf_path overlay_pdf_path final_out_path fs
    = Ok (<[final_out_path := out]> fs) /\
    length out = length base /\
    forall i b, base !! i = Some b ->
      exists o, overlay !! i = Some o /\ out !! i = Some (render b o).
Proof.
  intros Hb Ho Hlen. unfold merge_pdfs, PdfReader. rewrite Hb, Ho.
  cbn [mbind result_bind].
  destruct overlay as [|o overlay].
  - destruct base; [|simpl in Hlen; lia].
    exists []. repeat split. intros i b Hi. discriminate.
  - destruct (merge_pages_Ok render (o :: overlay) base ltac:(simpl; lia) 0%nat)
      as (out & -> & Hout & Hpages).
    exists out. split; [reflexivity|]. split; [exact Hout|].
    intros i b Hi. destruct (Hpages i b Hi) as (o' & Ho' & Hi').
    exists o'. split; [|exact Hi'].
    apply lookup_lt_Some in Hi. rewrite <- Ho'. f_equal. simpl in *. lia.
Qed.

Lemma merge_page_for_page_witness :
  exists out : document Q,
    merge_pdfs stamp "base_render.pdf" "overlay.pdf" "final_fill.pdf"
      (<["base_render.pdf" := [base_page 1; base_page 2]]>
         (<["overlay.pdf" :=
              [overlay_page_of [field_w20]; overlay_page_of [field_zero];
               overlay_page_of [field_y1200]]]> ∅))
    = Ok (<["final_fill.pdf" := out]>
            (<["base_render.pdf" := [base_page 1; base_page 2]]>
               (<["overlay.pdf" :=
                    [overlay_page_of [field_w20]; overlay_page_of [field_zero];
                     overlay_page_of [field_y1200]]]> ∅))) /\
    length out = 2%nat /\
    forall i b, [base_page 1; base_page 2] !! i = Some b ->
      exists o,
        [overlay_page_of [field_w20]; overlay_page_of [field_zero];
         overlay_page_of [field_y1200]] !! i = Some o /\
        out !! i = Some (stamp b o).
Proof.
  apply (merge_page_for_page Q stamp
           "base_render.pdf" "overlay.pdf" "final_fill.pdf"
           (<["base_render.pdf" := [base_page 1; base_page 2]]>
              (<["overlay.pdf" :=
                   [overlay_page_of [field_w20]; overlay_page_of [field_zero];
                    overlay_page_of [field_y1200]]]> ∅))
           [base_page 1; base_page 2]
           [overlay_page_of [field_w20]; overlay_page_of [field_zero];
            overlay_page_of [field_y1200]]).
  - reflexivity.
  - reflexivity.
  - simpl. lia.
Defined.

(** X12. The output path may be one of the input paths, and then the input
    is lost: with a one-page overlay, a call whose output path is the base
    path replaces the base file by its stamped pages, and a call whose
    output path is the overlay path replaces the overlay file by the
    stamped base. *)
Theorem merge_onto_an_input_overwrites_it
    (num : Type) (render : page num -> page num -> page num)
    (base_pdf_path overlay_pdf_path : string)
    (fs : filesystem num) (base : document num) (o : page num) :
  fs !! base_pdf_path = Some base ->
  fs !! overlay_pdf_path = Some [o] ->
  (exists fs',
      merge_pdfs render base_pdf_path overlay_pdf_path base_pdf_path fs
      = Ok fs' /\
      fs' !! base_pdf_path = Some (map (fun b => render b o) base)) /\
  (exists fs',
      merge_pdfs render base_pdf_path overlay_pdf_path overlay_pdf_path fs
      = Ok fs' /\
      fs' !! overlay_pdf_path = Some (map (fun b => render b o) base)).
Proof.
  intros Hb Ho. split; eexists;
    (split; [apply (merge_pdfs_single_overlay render _ _ _ fs base o Hb Ho)|]);
    apply lookup_insert_eq.
Qed.

Lemma merge_onto_an_input_overwrites_it_witness :
  exists fs' : filesystem Q,
    merge_pdfs stamp "base_render.pdf" "overlay.pdf" "base_render.pdf"
      (<["base_render.pdf" := [base_page 1]]>
         (<["overlay.pdf" := [overlay_page_of [field_w20]]]> ∅))
    = Ok fs' /\
    fs' !! "base_render.pdf"
    = Some [stamp (base_page 1) (overlay_page_of [field_w20])].
Proof.
  exact (proj1 (merge_onto_an_input_overwrites_it Q stamp
                  "base_render.pdf" "overlay.pdf"
                  (<["base_render.pdf" := [base_page 1]]>
                     (<["overlay.pdf" := [overlay_page_of [field_w20]]]> ∅))
                  [base_page 1] (overlay_page_of [field_w20])
                  eq_refl eq_refl)).
Defined.

(** X17. When the overlay has a page but fewer pages than the base, its
    last page is used again: page [i] of the output is page [i] of the
    base stamped with overlay page [min(i, page_count - 1)], and the output
    has as many pages as the base.  A base of three pages and an overlay
    of one page give three pages, each stamped with that one page. *)
Theorem merge_reuses_last_overlay_page :
  (forall (num : Type) (render : page num -> page num -> page num)
          (base_pdf_path overlay_pdf_path final_out_path : string)
          (fs : filesystem num) (base overlay : document num),
      fs !! base_pdf_path = Some base ->
      fs !! overlay_pdf_path = Some overlay ->
      (1 <= length overlay)%nat ->
      (length overlay < length base)%nat ->
      exists out,
        merge_pdfs render base_pdf_path overlay_pdf_path final_out_path fs
        = Ok (<[final_out_path := out]> fs) /\
        length out = length base /\
        forall i b, base !! i = Some b ->
          exists o,
            overlay !! Nat.min i (length overlay - 1) = Some o /\
            out !! i = Some (render b o)) /\
  (forall (num : Type) (render : page num -> page num -> page num)
          (base_pdf_path overlay_pdf_path final_out_path : string)
          (fs : filesystem num) (b0 b1 b2 o : page num),
      fs !! base_pdf_path = Some [b0; b1; b2] ->
      fs !! overlay_pdf_path = Some [o] ->
      merge_pdfs render base_pdf_path overlay_pdf_path final_out_path fs
      = Ok (<[final_out_path := [render b0 o; render b1 o; render b2 o]]> fs)).
Proof.
  split.
  - intros num render bp op fp fs base overlay Hb Ho Hn _.
    destruct (merge_pages_Ok render overlay base Hn 0%nat)
      as (out & Hrun & Hlen & Hout).
    exists out. unfold merge_pdfs, PdfReader. rewrite Hb, Ho. simpl.
    rewrite Hrun. simpl. split; [reflexivity|]. split; [exact Hlen|].
    exact Hout.
  - intros num render bp op fp fs b0 b1 b2 o Hb Ho.
    unfold merge_pdfs, PdfReader. rewrite Hb, Ho. reflexivity.
Qed.

Lemma merge_reuses_last_overlay_page_witness :
  exists out : document Q,
    merge_pdfs stamp "base_render.pdf" "overlay.pdf" "final_fill.pdf"
      (<["base_render.pdf" := [base_page 1; base_page 2; base_page 3]]>
         (<["overlay.pdf" :=
              [overlay_page_of [field_w20]; overlay_page_of [field_zero]]]> ∅))
    = Ok (<["final_fill.pdf" := out]>
            (<["base_render.pdf" := [base_page 1; base_page 2; base_page 3]]>
               (<["overlay.pdf" :=
                    [overlay_page_of [field_w20];
                     overlay_page_of [field_zero]]]> ∅))) /\
    length out = 3%nat /\
    forall i b, [base_page 1; base_page 2; base_page 3] !! i = Some b ->
      exists o,
        [overlay_page_of [field_w20]; overlay_page_of [field_zero]]
          !! Nat.min i (2 - 1) = Some o /\
        out !! i = Some (stamp b o).
Proof.
  apply (proj1 merge_reuses_last_overlay_page Q stamp
           "base_render.pdf" "overlay.pdf" "final_fill.pdf"
           (<["base_render.pdf" := [base_page 1; base_page 2; base_page 3]]>
              (<["overlay.pdf" :=
                   [overlay_page_of [field_w20];
                    overlay_page_of [field_zero]]]> ∅))
           [base_page 1; base_page 2; base_page 3]
           [overlay_page_of [field_w20]; overlay_page_of [field_zero]]).
  - reflexivity.
  - reflexivity.
  - simpl. lia.
  - simpl. lia.
Defined.

(** ** The program: lines 27 to 53 and 115 to 149 *)



Lemma module_globals_out_dir (html_path out_pdf : string) :
  module_globals html_path out_pdf !! "out_dir" = None.
Proof.
  unfold module_globals.
  rewrite !lookup_insert_ne by discriminate. apply lookup_empty.
Qed.

Section ProgramFacts.
Context {num : Type} `{Arith num}.
Variable A4 : num * num.
Variable Canvas_attrs : gset string.
Variable acroform_rejects : widget num -> bool.
Variable acroform_paints : widget num -> list (drawing num).
Variable rect_rejects : drawing num -> bool.
Variable render : page num -> page num -> page num.
Variable browser : string -> option (document num * list (element num)).
Variable join_prefix : string -> string.

(** X13. The program as it is: the module binds [html_path] and [out_pdf]
    but no [out_dir], and [run] reads [out_dir] first.  Started without an
    argument, the program prints its usage line and exits with status 1;
    started with one, it stops with a [NameError] for [out_dir] before it
    has printed, created or written anything.  The argument itself is
    never read: with any globals, two argument lists that both hold an
    argument give the same run. *)
Theorem main_stops_before_any_output :
  (forall (html_path out_pdf : string) (argv : list string) (w : world num),
      main A4 Canvas_attrs acroform_rejects acroform_paints rect_rejects
           render browser join_prefix
           (module_globals html_path out_pdf) argv w
      = if (length argv <? 2)%nat
        then ({| pdfs := pdfs w; jsons := jsons w; dirs := dirs w;
                 stdout :=
                   stdout w ++ ["Usage: python run.py path/to/file.html"] |},
              Failed (SystemExit 1))
        else (w, Failed (NameError "out_dir"))) /\
  (forall (globals : gmap string string) (argv argv' : list string)
          (w : world num),
      (2 <= length argv)%nat -> (2 <= length argv')%nat ->
      main A4 Canvas_attrs acroform_rejects acroform_paints rect_rejects
           render browser join_prefix globals argv w
      = main A4 Canvas_attrs acroform_rejects acroform_paints rect_rejects
             render browser join_prefix globals argv' w).
Proof.
  split.
  - intros html_path out_pdf argv w. unfold main.
    destruct (length argv <? 2)%nat; [reflexivity|].
    unfold run, load_global, mbind, action_bind.
    rewrite module_globals_out_dir. reflexivity.
  - intros globals argv argv' w Ha Ha'. unfold main.
    apply Nat.ltb_ge in Ha, Ha'. rewrite Ha, Ha'. reflexivity.
Qed.

Variable globals : gmap string string.
(** ReportLab's canvas: its form is the property [acroForm]. *)
Hypothesis no_acroform : "acroform" ∉ Canvas_attrs.


End ProgramFacts.

Lemma main_stops_before_any_output_witness :
  main page_841_89 reportlab_Canvas_attrs healthy_backend border_painter
       any_rect stamp sample_browser slash_prefix
       (patched_globals "form.html") ["run.py"; "first.html"] empty_world
  = main page_841_89 reportlab_Canvas_attrs healthy_backend border_painter
         any_rect stamp sample_browser slash_prefix
         (patched_globals "form.html") ["run.py"; "second.html"] empty_world.
Proof.
  apply (proj2 (main_stops_before_any_output page_841_89
                  reportlab_Canvas_attrs healthy_backend border_painter
                  any_rect stamp sample_browser slash_prefix)); simpl; lia.
Defined.


